(** * The cellphonedb RabbitMQ worker (run_cellphonedb_rabbitmq.py)

    A shallow embedding of the worker script: the job handlers
    [process_plot] and [process_method], the result builders they call, and
    the bounded consumption loop at the bottom of the script.

    The script is orchestration code.  Everything it calls outside the file
    (the JSON decoder, the object store, the analysis launchers, the R
    plotters, the state of the broker connection) is gathered in one record
    of collaborators, [Env], and the general statements below hold for an
    arbitrary [Env]; concrete runs use the environment [demo_env].  State is
    threaded explicitly: a [world] holds the job queue, the generation of the
    broker connection and the chronological trace of the external calls made
    so far.  Python exceptions are the left summand of the result, and the
    world reached when an exception is raised is kept, as in Python. *)

From Stdlib Require Import String Ascii List ZArith Bool Lia DecimalString.
From Stdlib Require Import SpecFloat.
Import ListNotations.

Local Open Scope nat_scope.
Local Open Scope string_scope.
Local Open Scope list_scope.

(** ** Python values *)

(** A Python float is an IEEE 754 binary64 number: 53 bits of mantissa,
    infinities at exponent 1024. *)
Definition float : Type := spec_float.

(** The integer [z] rounded to the nearest float, ties to even; an
    infinity when [z] is out of range. *)
Definition float_of_Z (z : Z) : float := binary_normalize 53 1024 z 0 false.

(** The values [json.loads] can produce ([NaN] and [Infinity] included). *)
#[warnings="-register-all"]
Inductive pyval : Type :=
| PNone
| PBool (b : bool)
| PInt (z : Z)
| PFloat (f : float)
| PStr (s : string)
| PList (l : list pyval)
| PDict (d : list (string * pyval)).

(** Truth value of an object, as used by [if x], [bool(x)] and [all]. *)
Definition py_truthy (v : pyval) : bool :=
  match v with
  | PNone => false
  | PBool b => b
  | PInt z => negb (z =? 0)%Z
  | PFloat f => match f with S754_zero _ => false | _ => true end
  | PStr s => negb (s =? "")
  | PList l => match l with [] => false | _ => true end
  | PDict d => match d with [] => false | _ => true end
  end.

(** [v == s] for a string literal [s]. *)
Definition py_eq_str (v : pyval) (s : string) : bool :=
  match v with
  | PStr t => (t =? s)
  | _ => false
  end.

Fixpoint assoc (k : string) (d : list (string * pyval)) : option pyval :=
  match d with
  | [] => None
  | (k', v) :: d' => if (k' =? k) then Some v else assoc k d'
  end.

(** ** Exceptions *)

(** The seven classes named by the first [except] clause of the loop. *)
Inductive domain_class : Type :=
| ReadFileException
| ParseMetaException
| ParseCountsException
| ThresholdValueException
| AllCountsFilteredException
| EmptyResultException
| PlotException.

(** What the loop reads from a caught domain exception: [str(e)] and the
    optional [description] and [hint] attributes ([None] when the attribute
    is missing or is [None]). *)
Record exn_attrs : Type := {
  e_str : string;
  e_description : option string;
  e_hint : option string
}.

(** An exception is an instance of one of the seven classes, or any other
    [Exception]; [detail] is the diagnostic text of the latter. *)
Inductive exn : Type :=
| Domain (c : domain_class) (a : exn_attrs)
| Other (detail : string).

Definition KeyError (k : string) : exn := Other ("KeyError: '" ++ k ++ "'")%string.
Definition TypeError : exn := Other "TypeError".
Definition ValueError : exn := Other "ValueError".
Definition OverflowError : exn := Other "OverflowError".
Definition AttributeError : exn := Other "AttributeError".

Definition result (A : Type) : Type := (exn + A)%type.

(** [v[k]] for a string key. *)
Definition py_getitem (v : pyval) (k : string) : result pyval :=
  match v with
  | PDict d => match assoc k d with
               | Some x => inr x
               | None => inl (KeyError k)
               end
  | _ => inl TypeError
  end.

(** [v.get(k, default)]. *)
Definition py_get (v : pyval) (k : string) (default : pyval) : result pyval :=
  match v with
  | PDict d => match assoc k d with
               | Some x => inr x
               | None => inr default
               end
  | _ => inl AttributeError
  end.

(** ** Data passed to and from the collaborators *)

Definition blob : Type := string.

(** A pandas DataFrame is only handed on by the script (reader to launcher
    to [to_csv]); it is kept as an opaque token. *)
Inductive DataFrame : Type := Frame (token : string).

Record Subsampler : Type := {
  ss_log : bool;
  ss_num_pc : Z;
  ss_num_cells : option Z
}.

(** Keyword arguments of [cpdb_statistical_analysis_launcher]. *)
Record stat_args : Type := {
  sa_meta : DataFrame;
  sa_counts : DataFrame;
  sa_threshold : float;
  sa_iterations : Z;
  sa_debug_seed : Z;
  sa_threads : Z;
  sa_result_precision : Z;
  sa_pvalue : float;
  sa_subsampler : option Subsampler
}.

(** Keyword arguments of [cpdb_method_analysis_launcher]. *)
Record method_args : Type := {
  ma_meta : DataFrame;
  ma_counts : DataFrame;
  ma_threshold : float;
  ma_result_precision : Z;
  ma_subsampler : option Subsampler
}.

(** Arguments of the R plotters: the staged input files (content and the
    suffix of the temporary file) and the requested output names. *)
Record dot_args : Type := {
  dp_means : blob;
  dp_means_suffix : string;
  dp_pvalues : blob;
  dp_pvalues_suffix : string;
  dp_rows : blob;
  dp_columns : blob;
  dp_output_name : string
}.

Record heatmaps_args : Type := {
  hp_meta : blob;
  hp_pvalues : blob;
  hp_pvalues_suffix : string;
  hp_count_name : string;
  hp_count_log_name : string
}.

(** A message of the job queue.  [basic_get] returns the triple
    [(method, properties, body)]; the handlers read the body only, and the
    two other components of a delivered message are objects, hence true. *)
Record message : Type := { body : string }.

(** ** The world *)

Inductive event : Type :=
| EvBasicGet (job : option message)
| EvS3Get (key : pyval)
| EvS3Put (key : string) (content : blob)
| EvStatLaunch (a : stat_args)
| EvMethodLaunch (a : method_args)
| EvDotPlot (a : dot_args)
| EvHeatmapsPlot (a : heatmaps_args)
| EvConnect
| EvPublish (response : pyval).

Record world : Type := {
  trace : list event;
  job_queue : list message;
  connection : nat
}.

Definition record (ev : event) (w : world) : world :=
  {| trace := trace w ++ [ev];
     job_queue := job_queue w;
     connection := connection w |}.

(** The world before the script starts, with [q] waiting in the job
    queue. *)
Definition queued (q : list message) : world :=
  {| trace := []; job_queue := q; connection := 0 |}.

(** ** The collaborators *)

(** Whatever is imported, read from the environment or answered by a remote
    service.  An answer may depend on the whole history, which the world
    carries. *)
Record Env : Type := {
  (** [os.environ['RABBIT_JOB_QUEUE']] *)
  jobs_queue_name : string;
  (** [json.loads(body.decode('utf-8'))] *)
  json_loads : string -> result pyval;
  (** ['{}'.format(v)] for a float, a list or a dict *)
  format_other : pyval -> string;
  (** [int(s)] and [float(s)] for a string [s]; [None] is a [ValueError] *)
  int_of_str : string -> option Z;
  float_of_str : string -> option float;
  (** [os.path.splitext(p)[-1]] for a string [p] *)
  splitext_ext : string -> string;
  (** [s3_client.get_object(Bucket=s3_bucket_name, Key=key)] and the read of
      its body *)
  s3_get_object : world -> pyval -> result blob;
  (** [tempfile.TemporaryDirectory()]: [Some e] when it raises [e] *)
  temporary_directory : world -> option exn;
  (** [tempfile.NamedTemporaryFile(suffix=s)], or without a suffix, when the
      handler holds [n] temporary files already: [Some e] when it raises *)
  named_temporary_file : world -> nat -> option string -> option exn;
  (** [file.write(content)] and [file.seek(0)] on a temporary file: [Some e]
      when it raises *)
  write_temporary_file : world -> blob -> option exn;
  (** [utils.read_data_from_s3_object(s3_object, filename, index_column_first)] *)
  read_data_from_s3_object : blob -> pyval -> bool -> result DataFrame;
  (** [data.to_csv(result_buffer, index=False, sep='\t')] *)
  to_csv : DataFrame -> blob;
  (** The fresh [boto3.client] and its [put_object(...)]: [Some e] when one
      of them raises [e] *)
  s3_put_object : world -> string -> blob -> option exn;
  cpdb_statistical_analysis_launcher :
    world -> stat_args -> result (DataFrame * DataFrame * DataFrame * DataFrame);
  cpdb_method_analysis_launcher :
    world -> method_args -> result (DataFrame * DataFrame * DataFrame);
  (** The plotters answer with the content of each requested output file,
      [None] when [os.path.exists] is false for it afterwards. *)
  dot_plot : world -> dot_args -> result (option blob);
  heatmaps_plot : world -> heatmaps_args -> result (option blob * option blob);
  (** What [str(e)], [e.description] and [e.hint] are for
      [e = PlotException(msg)]; the class is declared outside this file. *)
  PlotException_init : string -> exn_attrs;
  (** [connection.is_closed] *)
  is_closed : world -> bool
}.

(** ** State and exceptions *)

Definition M (A : Type) : Type := world -> result A * world.

Definition ret {A} (a : A) : M A := fun w => (inr a, w).

Definition raise {A} (e : exn) : M A := fun w => (inl e, w).

Definition bind {A B} (m : M A) (k : A -> M B) : M B :=
  fun w =>
    match m w with
    | (inl e, w') => (inl e, w')
    | (inr a, w') => k a w'
    end.

Definition lift {A} (r : result A) : M A := fun w => (r, w).

Definition emit (ev : event) : M unit := fun w => (inr tt, record ev w).

(** [try: body except Exception as e: handler e] *)
Definition try_except {A} (m : M A) (handler : exn -> M A) : M A :=
  fun w =>
    match m w with
    | (inl e, w') => handler e w'
    | (inr a, w') => (inr a, w')
    end.

Declare Scope py_scope.
Delimit Scope py_scope with py.
Notation "x <- m ;; k" := (bind m (fun x => k))
  (at level 61, m at next level, right associativity) : py_scope.
Notation "m ;; k" := (bind m (fun _ => k))
  (at level 61, right associativity) : py_scope.
Local Open Scope py_scope.

(** ** The script *)

Section Worker.

Variable E : Env.

(** *** Builtins *)

(** ['{}'.format(v)] *)
Definition py_format (v : pyval) : string :=
  match v with
  | PStr s => s
  | PInt z => NilZero.string_of_int (Z.to_int z)
  | PBool true => "True"
  | PBool false => "False"
  | PNone => "None"
  | _ => format_other E v
  end.

(** [int(v)]: a float is truncated towards zero; an infinity is an
    [OverflowError] and a NaN a [ValueError]. *)
Definition py_int (v : pyval) : result Z :=
  match v with
  | PInt z => inr z
  | PBool b => inr (if b then 1 else 0)%Z
  | PFloat f =>
      match f with
      | S754_zero _ => inr 0%Z
      | S754_infinity _ => inl OverflowError
      | S754_nan => inl ValueError
      | S754_finite s m e => inr (cond_Zopp s (Z.shiftl (Zpos m) e))
      end
  | PStr s => match int_of_str E s with
              | Some z => inr z
              | None => inl ValueError
              end
  | _ => inl TypeError
  end.

(** [float(v)]: an integer is rounded to the nearest float, and is an
    [OverflowError] when it is too large for one. *)
Definition py_float (v : pyval) : result float :=
  match v with
  | PInt z =>
      match float_of_Z z with
      | S754_infinity _ => inl OverflowError
      | f => inr f
      end
  | PBool b => inr (float_of_Z (if b then 1 else 0))
  | PFloat f => inr f
  | PStr s => match float_of_str E s with
              | Some q => inr q
              | None => inl ValueError
              end
  | _ => inl TypeError
  end.

(** [os.path.splitext(p)[-1]]: a [TypeError] unless [p] is a string. *)
Definition splitext (p : pyval) : result string :=
  match p with
  | PStr s => inr (splitext_ext E s)
  | _ => inl TypeError
  end.

(** *** Object store *)

Definition s3_get (key : pyval) : M blob :=
  fun w => (s3_get_object E w key, record (EvS3Get key) w).

Definition read_data_from_s3 (filename : pyval) (index_column_first : bool)
  : M DataFrame :=
  s3_object <- s3_get filename ;;
  lift (read_data_from_s3_object E s3_object filename index_column_first).

Definition s3_put (key : string) (content : blob) : M unit :=
  fun w =>
    match s3_put_object E w key content with
    | Some e => (inl e, w)
    | None => (inr tt, record (EvS3Put key content) w)
    end.

Definition write_data_in_s3 (data : DataFrame) (filename : string) : M unit :=
  s3_put filename (to_csv E data).

(** [path] is a file whose existence was checked; [content] is what
    [open(path, 'rb')] reads. *)
Definition write_image_to_s3 (content : blob) (filename : string) : M unit :=
  s3_put filename content.

(** [with tempfile.TemporaryDirectory() as output_path:] *)
Definition TemporaryDirectory : M unit :=
  fun w =>
    match temporary_directory E w with
    | Some e => (inl e, w)
    | None => (inr tt, w)
    end.

(** [with tempfile.NamedTemporaryFile(suffix=...) as file:], the handler
    holding [held] temporary files already. *)
Definition NamedTemporaryFile (held : nat) (suffix : option string) : M unit :=
  fun w =>
    match named_temporary_file E w held suffix with
    | Some e => (inl e, w)
    | None => (inr tt, w)
    end.

Definition _from_s3_to_temp (key : pyval) : M blob :=
  data <- s3_get key ;;
  (fun w =>
     match write_temporary_file E w data with
     | Some e => (inl e, w)
     | None => (inr data, w)
     end).

(** *** Responses *)

Definition success_response (job_id : pyval) (files : list (string * pyval))
  : pyval :=
  PDict [("job_id", job_id); ("files", PDict files); ("success", PBool true)].

Definition failure_response (job_id : pyval) (id message : string) : pyval :=
  PDict [("job_id", job_id);
         ("success", PBool false);
         ("error", PDict [("id", PStr id); ("message", PStr message)])].

(** *** Plots *)

Definition plot_failure_text : string :=
  "Could not generate output file for plot of type dot_plot".

Definition raise_PlotException {A} (msg : string) : M A :=
  raise (Domain PlotException (PlotException_init E msg)).

Definition dot_plot_results (means pvalues rows columns job_id : pyval)
  : M pyval :=
  TemporaryDirectory ;;
  means_suffix <- lift (splitext means) ;;
  NamedTemporaryFile 0 (Some means_suffix) ;;
  pvalues_suffix <- lift (splitext pvalues) ;;
  NamedTemporaryFile 1 (Some pvalues_suffix) ;;
  NamedTemporaryFile 2 None ;;
  NamedTemporaryFile 3 None ;;
  means_file <- _from_s3_to_temp means ;;
  pvalues_file <- _from_s3_to_temp pvalues ;;
  rows_file <- _from_s3_to_temp rows ;;
  columns_file <- _from_s3_to_temp columns ;;
  let output_name := ("plot__" ++ py_format job_id ++ ".png")%string in
  let args := {| dp_means := means_file; dp_means_suffix := means_suffix;
                 dp_pvalues := pvalues_file; dp_pvalues_suffix := pvalues_suffix;
                 dp_rows := rows_file; dp_columns := columns_file;
                 dp_output_name := output_name |} in
  output_file <- (fun w => (dot_plot E w args, record (EvDotPlot args) w)) ;;
  match output_file with
  | None => raise_PlotException plot_failure_text
  | Some content =>
      let response := success_response job_id [("plot", PStr output_name)] in
      write_image_to_s3 content output_name ;;
      ret response
  end.

Definition heatmaps_plot_results (meta pvalues job_id : pyval) : M pyval :=
  TemporaryDirectory ;;
  pvalues_suffix <- lift (splitext pvalues) ;;
  NamedTemporaryFile 0 (Some pvalues_suffix) ;;
  NamedTemporaryFile 1 None ;;
  pvalues_file <- _from_s3_to_temp pvalues ;;
  meta_file <- _from_s3_to_temp meta ;;
  let count_name := ("plot_count__" ++ py_format job_id ++ ".png")%string in
  let count_log_name :=
    ("plot_count_log__" ++ py_format job_id ++ ".png")%string in
  let args := {| hp_meta := meta_file; hp_pvalues := pvalues_file;
                 hp_pvalues_suffix := pvalues_suffix;
                 hp_count_name := count_name;
                 hp_count_log_name := count_log_name |} in
  outputs <- (fun w => (heatmaps_plot E w args, record (EvHeatmapsPlot args) w)) ;;
  match outputs with
  | (Some count, Some count_log) =>
      let response :=
        success_response job_id [("count_plot", PStr count_name);
                                 ("count_log_plot", PStr count_log_name)] in
      write_image_to_s3 count count_name ;;
      write_image_to_s3 count_log count_log_name ;;
      ret response
  | _ => raise_PlotException plot_failure_text
  end.

Definition process_plot (job : message) : M pyval :=
  metadata <- lift (json_loads E (body job)) ;;
  job_id <- lift (py_getitem metadata "job_id") ;;
  plot_type <- lift (py_get metadata "type" PNone) ;;
  if py_eq_str plot_type "dot_plot" then
    means <- lift (py_get metadata "file_means" PNone) ;;
    pvalues <- lift (py_get metadata "file_pvalues" PNone) ;;
    rows <- lift (py_get metadata "file_rows" PNone) ;;
    columns <- lift (py_get metadata "file_columns" PNone) ;;
    dot_plot_results means pvalues rows columns job_id
  else if py_eq_str plot_type "heatmaps_plot" then
    meta <- lift (py_get metadata "file_meta" PNone) ;;
    pvalues <- lift (py_get metadata "file_pvalues" PNone) ;;
    heatmaps_plot_results meta pvalues job_id
  else
    ret (failure_response job_id "UnknownPlotType"
           ("Given plot type does not exist: " ++ py_format plot_type)%string).

(** *** Method analysis *)

(** The conditional expression that builds the [Subsampler] argument. *)
Definition make_subsampler (metadata : pyval) : M (option Subsampler) :=
  subsampling <- lift (py_get metadata "subsampling" (PBool false)) ;;
  if py_truthy subsampling then
    log <- lift (py_getitem metadata "log") ;;
    num_pc_v <- lift (py_getitem metadata "num_pc") ;;
    num_pc <- lift (py_int num_pc_v) ;;
    has_cells <- lift (py_get metadata "num_cells" (PBool false)) ;;
    num_cells <-
      (if py_truthy has_cells then
         num_cells_v <- lift (py_getitem metadata "num_cells") ;;
         n <- lift (py_int num_cells_v) ;;
         ret (Some n)
       else ret None) ;;
    ret (Some {| ss_log := py_truthy log;
                 ss_num_pc := num_pc;
                 ss_num_cells := num_cells |})
  else ret None.

(** The literal [0.05]: the float nearest to 5/100,
    [0x1.999999999999ap-5]. *)
Definition default_pvalue : float :=
  S754_finite false 7205759403792794 (-57).

Definition statistical_files (job_id : pyval) : list (string * pyval) :=
  [("pvalues", PStr ("pvalues_simple_" ++ py_format job_id ++ ".txt")%string);
   ("means", PStr ("means_simple_" ++ py_format job_id ++ ".txt")%string);
   ("significant_means",
    PStr ("significant_means_simple_" ++ py_format job_id ++ ".txt")%string);
   ("deconvoluted",
    PStr ("deconvoluted_simple_" ++ py_format job_id ++ ".txt")%string)].

Definition non_statistical_files (job_id : pyval) : list (string * pyval) :=
  [("means", PStr ("means_simple_" ++ py_format job_id ++ ".txt")%string);
   ("significant_means",
    PStr ("significant_means_" ++ py_format job_id ++ ".txt")%string);
   ("deconvoluted",
    PStr ("deconvoluted_simple_" ++ py_format job_id ++ ".txt")%string)].

Definition statistical_analysis (meta counts : DataFrame) (job_id metadata : pyval)
    (subsampler : option Subsampler) : M pyval :=
  threshold_v <- lift (py_getitem metadata "threshold") ;;
  threshold <- lift (py_float threshold_v) ;;
  iterations_v <- lift (py_getitem metadata "iterations") ;;
  iterations <- lift (py_int iterations_v) ;;
  result_precision_v <- lift (py_getitem metadata "result_precision") ;;
  result_precision <- lift (py_int result_precision_v) ;;
  pvalue_v <- lift (py_get metadata "pvalue" (PFloat default_pvalue)) ;;
  pvalue <- lift (py_float pvalue_v) ;;
  let args := {| sa_meta := meta; sa_counts := counts;
                 sa_threshold := threshold;
                 sa_iterations := iterations;
                 sa_debug_seed := (-1)%Z;
                 sa_threads := 4%Z;
                 sa_result_precision := result_precision;
                 sa_pvalue := pvalue;
                 sa_subsampler := subsampler |} in
  out <- (fun w => (cpdb_statistical_analysis_launcher E w args,
                    record (EvStatLaunch args) w)) ;;
  let '(pvalues, means, significant_means, deconvoluted) := out in
  let response := success_response job_id (statistical_files job_id) in
  write_data_in_s3 pvalues
    ("pvalues_simple_" ++ py_format job_id ++ ".txt")%string ;;
  write_data_in_s3 means
    ("means_simple_" ++ py_format job_id ++ ".txt")%string ;;
  write_data_in_s3 significant_means
    ("significant_means_simple_" ++ py_format job_id ++ ".txt")%string ;;
  write_data_in_s3 deconvoluted
    ("deconvoluted_simple_" ++ py_format job_id ++ ".txt")%string ;;
  ret response.

Definition non_statistical_analysis (meta counts : DataFrame)
    (job_id metadata : pyval) (subsampler : option Subsampler) : M pyval :=
  threshold_v <- lift (py_getitem metadata "threshold") ;;
  threshold <- lift (py_float threshold_v) ;;
  result_precision_v <- lift (py_getitem metadata "result_precision") ;;
  result_precision <- lift (py_int result_precision_v) ;;
  let args := {| ma_meta := meta; ma_counts := counts;
                 ma_threshold := threshold;
                 ma_result_precision := result_precision;
                 ma_subsampler := subsampler |} in
  out <- (fun w => (cpdb_method_analysis_launcher E w args,
                    record (EvMethodLaunch args) w)) ;;
  let '(means, significant_means, deconvoluted) := out in
  let response := success_response job_id (non_statistical_files job_id) in
  write_data_in_s3 means
    ("means_simple_" ++ py_format job_id ++ ".txt")%string ;;
  write_data_in_s3 significant_means
    ("significant_means_" ++ py_format job_id ++ ".txt")%string ;;
  write_data_in_s3 deconvoluted
    ("deconvoluted_simple_" ++ py_format job_id ++ ".txt")%string ;;
  ret response.

Definition process_method (job : message) : M pyval :=
  metadata <- lift (json_loads E (body job)) ;;
  job_id <- lift (py_getitem metadata "job_id") ;;
  file_meta <- lift (py_getitem metadata "file_meta") ;;
  meta <- read_data_from_s3 file_meta false ;;
  file_counts <- lift (py_getitem metadata "file_counts") ;;
  counts <- read_data_from_s3 file_counts true ;;
  subsampler <- make_subsampler metadata ;;
  iterations <- lift (py_getitem metadata "iterations") ;;
  if py_truthy iterations then
    statistical_analysis meta counts job_id metadata subsampler
  else
    non_statistical_analysis meta counts job_id metadata subsampler.

(** *** The worker loop *)

Definition consume_more_jobs : bool := true.

(** [channel.basic_get(queue=jobs_queue_name, no_ack=True)]: the head of the
    queue is removed, or the answer is [(None, None, None)]. *)
Definition basic_get : M (option message) :=
  fun w =>
    match job_queue w with
    | [] => (inr None, record (EvBasicGet None) w)
    | m :: rest =>
        (inr (Some m),
         {| trace := trace w ++ [EvBasicGet (Some m)];
            job_queue := rest;
            connection := connection w |})
    end.

(** [all(job)] *)
Definition all_job (job : option message) : bool :=
  match job with
  | Some m => negb (body m =? "")
  | None => false
  end.

(** [connection = create_rabbit_connection()], a channel on it, and
    [basic_qos].  The broker is taken to answer: making a connection and
    publishing on the connection the script has just made or checked do not
    raise. *)
Definition reconnect : M unit :=
  fun w =>
    (inr tt,
     {| trace := trace w ++ [EvConnect];
        job_queue := job_queue w;
        connection := S (connection w) |}).

Definition reconnect_if_closed : M unit :=
  fun w => if is_closed E w then reconnect w else (inr tt, w).

Definition basic_publish (response : pyval) : M unit :=
  emit (EvPublish response).

(** [' {}.'.format(x) if hasattr(e, name) and x else ''] *)
Definition attr_text (x : option string) : string :=
  match x with
  | Some s => if (s =? "") then "" else (" " ++ s ++ ".")%string
  | None => ""
  end.

(** [json.loads(job[2].decode('utf-8'))['job_id']] *)
Definition body_job_id (job : message) : result pyval :=
  match json_loads E (body job) with
  | inl e => inl e
  | inr metadata => py_getitem metadata "job_id"
  end.

Definition error_response (job_id : pyval) (a : exn_attrs) : pyval :=
  failure_response job_id (e_str a)
    (attr_text (e_description a) ++ attr_text (e_hint a))%string.

Definition unknown_error_response (job_id : pyval) : pyval :=
  failure_response job_id "unknown_error" "".

(** The handler of the queue the worker listens to (lines 287-290). *)
Definition handler (job : message) : M pyval :=
  if (jobs_queue_name E =? "plot_jobs") then process_plot job
  else process_method job.

(** The [try] statement of the loop body (lines 286-335).  An exception
    raised inside an [except] clause leaves the statement. *)
Definition run_job (job : message) : M unit :=
  try_except
    (job_response <- handler job ;;
     reconnect ;;
     basic_publish job_response)
    (fun e =>
       match e with
       | Domain _ a =>
           job_id <- lift (body_job_id job) ;;
           reconnect_if_closed ;;
           basic_publish (error_response job_id a)
       | Other _ =>
           job_id <- lift (body_job_id job) ;;
           reconnect_if_closed ;;
           basic_publish (unknown_error_response job_id)
       end).

(** How a run of the loop ends: the condition became false, an exception
    left the loop, or the iterations allowed to the model are used up while
    the condition still holds. *)
Inductive status : Type :=
| Exited (jobs_runned : nat)
| Crashed (e : exn)
| Running (jobs_runned : nat).

(** [while jobs_runned < 3 and consume_more_jobs: ...] (lines 282-342);
    [fuel] bounds the number of iterations.  Logging and [time.sleep(1)]
    leave no trace. *)
Fixpoint worker_loop (fuel : nat) (jobs_runned : nat) (w : world)
  : status * world :=
  if (jobs_runned <? 3)%nat && consume_more_jobs then
    match fuel with
    | O => (Running jobs_runned, w)
    | S fuel' =>
        match basic_get w with
        | (inl e, w1) => (Crashed e, w1)
        | (inr job, w1) =>
            if all_job job then
              match job with
              | Some m =>
                  match run_job m w1 with
                  | (inl e, w2) => (Crashed e, w2)
                  | (inr _, w2) => worker_loop fuel' (S jobs_runned) w2
                  end
              | None => worker_loop fuel' jobs_runned w1
              end
            else worker_loop fuel' jobs_runned w1
        end
    end
  else (Exited jobs_runned, w).

(** The script from [connection = create_rabbit_connection()] on, with
    [jobs_runned = 0]. *)
Definition worker (fuel : nat) (w : world) : status * world :=
  worker_loop fuel 0 (snd (reconnect w)).

End Worker.

Arguments py_format E v : simpl never.

(** ** Observations on traces and responses *)

(** What a run added to the trace. *)
Definition new_events (w w' : world) : list event :=
  skipn (length (trace w)) (trace w').

(** The bodies published to the result queue, in order. *)
Fixpoint published (evs : list event) : list pyval :=
  match evs with
  | [] => []
  | EvPublish r :: evs' => r :: published evs'
  | _ :: evs' => published evs'
  end.

(** The calls to the two analysis launchers, in order. *)
Fixpoint launches (evs : list event) : list event :=
  match evs with
  | [] => []
  | EvStatLaunch a :: evs' => EvStatLaunch a :: launches evs'
  | EvMethodLaunch a :: evs' => EvMethodLaunch a :: launches evs'
  | _ :: evs' => launches evs'
  end.

(** Events of the handlers: anything but a dequeue, a connection or a
    publication. *)
Definition handler_event (ev : event) : bool :=
  match ev with
  | EvBasicGet _ | EvConnect | EvPublish _ => false
  | _ => true
  end.

Definition py_lookup (v : pyval) (k : string) : option pyval :=
  match v with
  | PDict d => assoc k d
  | _ => None
  end.

Definition resp_job_id (r : pyval) : option pyval := py_lookup r "job_id".

Definition resp_success (r : pyval) : option pyval := py_lookup r "success".

Fixpoint str_values (d : list (string * pyval)) : list string :=
  match d with
  | [] => []
  | (_, PStr s) :: d' => s :: str_values d'
  | _ :: d' => str_values d'
  end.

(** The storage keys listed in the [files] mapping of a response. *)
Definition file_keys (r : pyval) : list string :=
  match py_lookup r "files" with
  | Some (PDict files) => str_values files
  | _ => []
  end.

(** The logical names of the [files] mapping of a response. *)
Definition file_names (r : pyval) : list string :=
  match py_lookup r "files" with
  | Some (PDict files) => map fst files
  | _ => []
  end.

(** The messages taken from the queue and handed to a handler. *)
Fixpoint jobs_taken (evs : list event) : list message :=
  match evs with
  | [] => []
  | EvBasicGet (Some m) :: evs' =>
      if all_job (Some m) then m :: jobs_taken evs' else jobs_taken evs'
  | _ :: evs' => jobs_taken evs'
  end.

(** The [job_id] of a message, when its body has one. *)
Definition body_id (E : Env) (m : message) : option pyval :=
  match body_job_id E m with
  | inr j => Some j
  | inl _ => None
  end.

(** A message the loop can answer: a non-empty body that decodes to an
    object with a [job_id]. *)
Definition processable (E : Env) (m : message) : bool :=
  all_job (Some m) &&
  match body_job_id E m with
  | inr _ => true
  | inl _ => false
  end.

(** What a whole run of the worker added to the trace. *)
Definition run_events (E : Env) (fuel : nat) (w : world) : list event :=
  new_events w (snd (worker E fuel w)).

(** The Failure the [except] clauses build for exception [e]. *)
Definition failure_for (e : exn) (job_id : pyval) : pyval :=
  match e with
  | Domain _ a => error_response job_id a
  | Other _ => unknown_error_response job_id
  end.

(** The world in which the Failure is published. *)
Definition after_reconnect_if_closed (E : Env) (w : world) : world :=
  if is_closed E w then snd (reconnect w) else w.

(** Every Success published in [evs] lists only keys put earlier in
    [evs]. *)
Definition stored_before_published (evs : list event) : Prop :=
  forall pre r post,
    evs = pre ++ EvPublish r :: post ->
    resp_success r = Some (PBool true) ->
    forall k, In k (file_keys r) -> exists c, In (EvS3Put k c) pre.

(** ** The sentences of the specification that the script does not satisfy *)

(** The sentence as the specification has it, for one message handed to the
    [try] statement: one Result, a Success exactly when the handler
    returned, carrying the [job_id] of the body. *)
Definition one_result_per_message (E : Env) (job : message) (w : world) : Prop :=
  exists r,
    published (new_events w (snd (run_job E job w))) = [r] /\
    (forall j, body_job_id E job = inr j -> resp_job_id r = Some j) /\
    resp_success r =
      Some (PBool (match fst (handler E job w) with
                   | inr _ => true
                   | inl _ => false
                   end)).

(** The second half of the sentence as the specification has it: started on
    an empty queue that stays empty, the loop stops once enough iterations
    have gone by. *)
Definition stops_on_empty_queue (E : Env) : Prop :=
  exists fuel n, fst (worker E fuel (queued [])) = Exited n.

(** The storage keys as the specification lists them: the three of the
    non-statistical path, and [pvalues_simple_<id>] on top of them on the
    statistical path.  [suffix] is what follows [<id>] in a key. *)
Definition specified_keys (suffix job_id : string) (statistical : bool)
  : list string :=
  [("means_simple_" ++ job_id ++ suffix)%string;
   ("significant_means_" ++ job_id ++ suffix)%string;
   ("deconvoluted_simple_" ++ job_id ++ suffix)%string]
  ++ (if statistical
      then [("pvalues_simple_" ++ job_id ++ suffix)%string]
      else []).

Definition files_as_specified (suffix job_id : string) (statistical : bool)
    (r : pyval) : Prop :=
  forall k, In k (file_keys r) <-> In k (specified_keys suffix job_id statistical).

(** The sentence as the specification has it, for one job: a connection is
    made only if the current one was seen closed when the handler was
    done. *)
Definition rebuilt_only_when_closed (E : Env) (job : message) (w : world)
  : Prop :=
  In EvConnect (new_events w (snd (run_job E job w))) ->
  is_closed E (snd (handler E job w)) = true.


(** ** A concrete environment *)

(** Job bodies as JSON text. *)
Definition dq : string := String (ascii_of_nat 34) EmptyString.

Definition jstr (s : string) : string := (dq ++ s ++ dq)%string.

Fixpoint jfields (fs : list (string * string)) : string :=
  match fs with
  | [] => ""
  | (k, v) :: rest =>
      match rest with
      | [] => (jstr k ++ ": " ++ v)%string
      | _ => (jstr k ++ ": " ++ v ++ ", " ++ jfields rest)%string
      end
  end.

Definition jobj (fs : list (string * string)) : string :=
  ("{" ++ jfields fs ++ "}")%string.

(** The literal [0.1]: the float nearest to 1/10, [0x1.999999999999ap-4]. *)
Definition float_0_1 : float := S754_finite false 7205759403792794 (-56).

Definition method_body (job_id iterations : string) : string :=
  jobj [("job_id", jstr job_id); ("file_meta", jstr "meta.txt");
        ("file_counts", jstr "counts.txt"); ("iterations", iterations);
        ("threshold", "0.1"); ("result_precision", "3")].

Definition method_value (job_id : string) (iterations : Z) : pyval :=
  PDict [("job_id", PStr job_id); ("file_meta", PStr "meta.txt");
         ("file_counts", PStr "counts.txt"); ("iterations", PInt iterations);
         ("threshold", PFloat float_0_1); ("result_precision", PInt 3)].

Definition unknown_plot_body : string :=
  jobj [("job_id", jstr "j1"); ("type", jstr "unknown_type")].

Definition unknown_plot_value : pyval :=
  PDict [("job_id", PStr "j1"); ("type", PStr "unknown_type")].

Definition heatmaps_body : string :=
  jobj [("job_id", jstr "j1"); ("type", jstr "heatmaps_plot");
        ("file_meta", jstr "meta.txt"); ("file_pvalues", jstr "pvalues.txt")].

Definition heatmaps_value : pyval :=
  PDict [("job_id", PStr "j1"); ("type", PStr "heatmaps_plot");
         ("file_meta", PStr "meta.txt"); ("file_pvalues", PStr "pvalues.txt")].

(** A method payload without [file_meta] and one without [job_id]. *)
Definition no_file_meta_body : string :=
  jobj [("job_id", jstr "j2"); ("file_counts", jstr "counts.txt")].

Definition no_file_meta_value : pyval :=
  PDict [("job_id", PStr "j2"); ("file_counts", PStr "counts.txt")].

Definition no_job_id_body : string :=
  jobj [("file_meta", jstr "meta.txt"); ("file_counts", jstr "counts.txt")].

Definition no_job_id_value : pyval :=
  PDict [("file_meta", PStr "meta.txt"); ("file_counts", PStr "counts.txt")].

(** A decoder that knows the bodies above. *)
Definition demo_loads (s : string) : result pyval :=
  match assoc s [(method_body "j1" "0", method_value "j1" 0);
                 (method_body "j1" "10", method_value "j1" 10);
                 (method_body "j3" "0", method_value "j3" 0);
                 (unknown_plot_body, unknown_plot_value);
                 (heatmaps_body, heatmaps_value);
                 (no_file_meta_body, no_file_meta_value);
                 (no_job_id_body, no_job_id_value)] with
  | Some v => inr v
  | None => inl ValueError
  end.

(** A worker on queue [queue_name] whose store holds every key, whose
    launchers succeed, whose heatmaps plotter leaves no file behind and
    whose broker connection never closes. *)
Definition demo_env (queue_name : string) : Env :=
  {| jobs_queue_name := queue_name;
     json_loads := demo_loads;
     format_other := fun _ => "?";
     int_of_str := fun _ => None;
     float_of_str := fun _ => None;
     splitext_ext := fun _ => ".txt";
     s3_get_object := fun _ key =>
       match key with
       | PStr s => inr ("content of " ++ s)%string
       | _ => inl (Other "ParamValidationError")
       end;
     temporary_directory := fun _ => None;
     named_temporary_file := fun _ _ _ => None;
     write_temporary_file := fun _ _ => None;
     read_data_from_s3_object := fun content _ _ => inr (Frame content);
     to_csv := fun data => match data with Frame t => t end;
     s3_put_object := fun _ _ _ => None;
     cpdb_statistical_analysis_launcher := fun _ _ =>
       inr (Frame "pvalues", Frame "means", Frame "significant_means",
            Frame "deconvoluted");
     cpdb_method_analysis_launcher := fun _ _ =>
       inr (Frame "means", Frame "significant_means", Frame "deconvoluted");
     dot_plot := fun _ _ => inr (Some "png");
     heatmaps_plot := fun _ _ => inr (None, None);
     PlotException_init := fun msg =>
       {| e_str := msg; e_description := None; e_hint := None |};
     is_closed := fun _ => false |}.

Definition method_worker : Env := demo_env "method_jobs".

Definition plot_worker : Env := demo_env "plot_jobs".


(** ** Start-up *)

(** [os.environ]: the variables that are set, with their values. *)
Definition environment : Type := list (string * string).

Fixpoint getenv (k : string) (environ : environment) : option string :=
  match environ with
  | [] => None
  | (k', v) :: rest => if (k' =? k) then Some v else getenv k rest
  end.

(** [os.environ[k]]: the value, or the [KeyError] that carries [k]. *)
Definition environ_item (environ : environment) (k : string)
  : string + string :=
  match getenv k environ with
  | Some v => inr v
  | None => inl k
  end.

Module Config.

(** The ten module-level names bound by the [try] block of lines 28-38. *)
Record t : Type := {
  s3_access_key : string;
  s3_secret_key : string;
  s3_bucket_name : string;
  s3_endpoint : string;
  rabbit_host : string;
  rabbit_port : string;
  rabbit_user : string;
  rabbit_password : string;
  jobs_queue_name : string;
  result_queue_name : string
}.

End Config.

(** The names read at start-up, in the order of the source. *)
Definition required_variables : list string :=
  ["S3_ACCESS_KEY"; "S3_SECRET_KEY"; "S3_BUCKET_NAME"; "S3_ENDPOINT";
   "RABBIT_HOST"; "RABBIT_PORT"; "RABBIT_USER"; "RABBIT_PASSWORD";
   "RABBIT_JOB_QUEUE"; "RABBIT_RESULT_QUEUE"].

(** The [try] block of lines 28-38: the first [KeyError] ends it. *)
Definition load_config (environ : environment) : string + Config.t :=
  match environ_item environ "S3_ACCESS_KEY" with inl k => inl k | inr v1 =>
  match environ_item environ "S3_SECRET_KEY" with inl k => inl k | inr v2 =>
  match environ_item environ "S3_BUCKET_NAME" with inl k => inl k | inr v3 =>
  match environ_item environ "S3_ENDPOINT" with inl k => inl k | inr v4 =>
  match environ_item environ "RABBIT_HOST" with inl k => inl k | inr v5 =>
  match environ_item environ "RABBIT_PORT" with inl k => inl k | inr v6 =>
  match environ_item environ "RABBIT_USER" with inl k => inl k | inr v7 =>
  match environ_item environ "RABBIT_PASSWORD" with inl k => inl k | inr v8 =>
  match environ_item environ "RABBIT_JOB_QUEUE" with inl k => inl k | inr v9 =>
  match environ_item environ "RABBIT_RESULT_QUEUE" with inl k => inl k | inr v10 =>
    inr {| Config.s3_access_key := v1; Config.s3_secret_key := v2;
           Config.s3_bucket_name := v3; Config.s3_endpoint := v4;
           Config.rabbit_host := v5; Config.rabbit_port := v6;
           Config.rabbit_user := v7; Config.rabbit_password := v8;
           Config.jobs_queue_name := v9; Config.result_queue_name := v10 |}
  end end end end end end end end end end.

(** [k] is not set in [environ]. *)
Definition unset (environ : environment) (k : string) : bool :=
  match getenv k environ with
  | Some _ => false
  | None => true
  end.

(** The line logged by the [except KeyError] clause; [format] prints a
    [KeyError] as its key between quotes. *)
Definition config_error_message (k : string) : string :=
  ("ENVIRONMENT VARIABLE '" ++ k ++ "' not defined. Please set it")%string.

(** The collaborators of [E], listening to the queue named by the
    configuration. *)
Definition with_queue (queue_name : string) (E : Env) : Env :=
  {| jobs_queue_name := queue_name;
     json_loads := json_loads E;
     format_other := format_other E;
     int_of_str := int_of_str E;
     float_of_str := float_of_str E;
     splitext_ext := splitext_ext E;
     s3_get_object := s3_get_object E;
     temporary_directory := temporary_directory E;
     named_temporary_file := named_temporary_file E;
     write_temporary_file := write_temporary_file E;
     read_data_from_s3_object := read_data_from_s3_object E;
     to_csv := to_csv E;
     s3_put_object := s3_put_object E;
     cpdb_statistical_analysis_launcher := cpdb_statistical_analysis_launcher E;
     cpdb_method_analysis_launcher := cpdb_method_analysis_launcher E;
     dot_plot := dot_plot E;
     heatmaps_plot := heatmaps_plot E;
     PlotException_init := PlotException_init E;
     is_closed := is_closed E |}.

(** How the script ends: [exit(1)] after the logged line, an exception
    raised while the clients and the first connection are built, or the way
    the loop ends. *)
Inductive script_end : Type :=
| ConfigExit (logged : string) (code : Z)
| StartupError (e : exn)
| LoopEnd (st : status).

(** The script from its first line: the configuration (lines 28-43), then
    the application, the two S3 clients, the credentials, the first
    connection and its channel (lines 55-63 and 275-278), then the loop.
    [start_up c w] is [Some e] when one of the calls of the second step
    raises [e] for the configuration [c], as they do for a port that is not
    a number or an endpoint that is not a URL; those calls are not under any
    [try].  When none raises, the connection they made is the one [worker]
    records. *)
Definition script (environ : environment)
    (start_up : Config.t -> world -> option exn) (E : Env) (fuel : nat)
    (w : world) : script_end * world :=
  match load_config environ with
  | inl k => (ConfigExit (config_error_message k) 1%Z, w)
  | inr c =>
      match start_up c w with
      | Some e => (StartupError e, w)
      | None =>
          let run := worker (with_queue (Config.jobs_queue_name c) E) fuel w in
          (LoopEnd (fst run), snd run)
      end
  end.

(** ** More observations *)

(** The objects put in the store, in order. *)
Fixpoint stored (evs : list event) : list (string * blob) :=
  match evs with
  | [] => []
  | EvS3Put k c :: evs' => (k, c) :: stored evs'
  | _ :: evs' => stored evs'
  end.

(** The keys requested from the store, in order. *)
Fixpoint fetched (evs : list event) : list pyval :=
  match evs with
  | [] => []
  | EvS3Get k :: evs' => k :: fetched evs'
  | _ :: evs' => fetched evs'
  end.

(** The number of connections made. *)
Fixpoint connects (evs : list event) : nat :=
  match evs with
  | [] => 0
  | EvConnect :: evs' => S (connects evs')
  | _ :: evs' => connects evs'
  end.

(** The [subsampler] argument of each launcher call. *)
Fixpoint subsamplers (evs : list event) : list (option Subsampler) :=
  match evs with
  | [] => []
  | EvStatLaunch a :: evs' => sa_subsampler a :: subsamplers evs'
  | EvMethodLaunch a :: evs' => ma_subsampler a :: subsamplers evs'
  | _ :: evs' => subsamplers evs'
  end.

Definition is_put (ev : event) : bool :=
  match ev with
  | EvS3Put _ _ => true
  | _ => false
  end.

(** The order of a method job with payload [md]: the object named by
    [file_meta] is fetched, then the one named by [file_counts], then one of
    the launchers is called, then the outputs are put; a job may stop
    anywhere on the way. *)
Definition method_job_order (md : pyval) (evs : list event) : Prop :=
  match evs with
  | [] => True
  | EvS3Get k1 :: evs1 =>
      py_lookup md "file_meta" = Some k1 /\
      match evs1 with
      | [] => True
      | EvS3Get k2 :: evs2 =>
          py_lookup md "file_counts" = Some k2 /\
          match evs2 with
          | [] => True
          | EvStatLaunch _ :: puts =>
              forallb is_put puts = true /\ length puts <= 4
          | EvMethodLaunch _ :: puts =>
              forallb is_put puts = true /\ length puts <= 3
          | _ => False
          end
      | _ => False
      end
  | _ => False
  end.

(** The order of a plot job: the inputs are fetched (four for a dot plot,
    two for the heatmaps), then the plotter is called, then the images are
    put. *)
Definition plot_job_order (evs : list event) : bool :=
  match evs with
  | EvS3Get _ :: EvS3Get _ :: EvS3Get _ :: EvS3Get _ :: EvDotPlot _ :: puts =>
      forallb is_put puts && (length puts <=? 1)%nat
  | EvS3Get _ :: EvS3Get _ :: EvHeatmapsPlot _ :: puts =>
      forallb is_put puts && (length puts <=? 2)%nat
  | _ => forallb (fun ev => match ev with EvS3Get _ => true | _ => false end) evs
         && (length evs <=? 4)%nat
  end.

(** The two shapes of a message of the result queue. *)
Definition is_success (r : pyval) : Prop :=
  exists job_id files,
    r = PDict [("job_id", job_id); ("files", PDict files);
               ("success", PBool true)] /\
    length (str_values files) = length files /\ files <> [].

Definition is_failure (r : pyval) : Prop :=
  exists job_id id message,
    r = PDict [("job_id", job_id); ("success", PBool false);
               ("error", PDict [("id", PStr id); ("message", PStr message)])].

(** ** A second concrete environment *)

Definition dot_plot_body : string :=
  jobj [("job_id", jstr "j4"); ("type", jstr "dot_plot");
        ("file_means", jstr "means.txt"); ("file_pvalues", jstr "pvalues.txt");
        ("file_rows", jstr "rows.txt"); ("file_columns", jstr "columns.txt")].

Definition dot_plot_value : pyval :=
  PDict [("job_id", PStr "j4"); ("type", PStr "dot_plot");
         ("file_means", PStr "means.txt"); ("file_pvalues", PStr "pvalues.txt");
         ("file_rows", PStr "rows.txt"); ("file_columns", PStr "columns.txt")].

(** A dot plot without [file_means]. *)
Definition bare_dot_plot_body : string :=
  jobj [("job_id", jstr "j7"); ("type", jstr "dot_plot")].

Definition bare_dot_plot_value : pyval :=
  PDict [("job_id", PStr "j7"); ("type", PStr "dot_plot")].

(** A statistical job that asks for subsampling, with [num_cells] 0. *)
Definition subsampling_body : string :=
  jobj [("job_id", jstr "j5"); ("file_meta", jstr "meta.txt");
        ("file_counts", jstr "counts.txt"); ("iterations", "10");
        ("threshold", "0.1"); ("result_precision", "3");
        ("subsampling", "true"); ("log", "false"); ("num_pc", "100");
        ("num_cells", "0")].

Definition subsampling_value : pyval :=
  PDict [("job_id", PStr "j5"); ("file_meta", PStr "meta.txt");
         ("file_counts", PStr "counts.txt"); ("iterations", PInt 10);
         ("threshold", PFloat float_0_1); ("result_precision", PInt 3);
         ("subsampling", PBool true); ("log", PBool false);
         ("num_pc", PInt 100); ("num_cells", PInt 0)].

(** A method job whose [iterations] is the string ["0"]. *)
Definition string_iterations_body : string :=
  jobj [("job_id", jstr "j8"); ("file_meta", jstr "meta.txt");
        ("file_counts", jstr "counts.txt"); ("iterations", jstr "0");
        ("threshold", "0.1"); ("result_precision", "3")].

Definition string_iterations_value : pyval :=
  PDict [("job_id", PStr "j8"); ("file_meta", PStr "meta.txt");
         ("file_counts", PStr "counts.txt"); ("iterations", PStr "0");
         ("threshold", PFloat float_0_1); ("result_precision", PInt 3)].

(** A method job whose meta file is not in the store. *)
Definition missing_meta_body : string :=
  jobj [("job_id", jstr "j6"); ("file_meta", jstr "missing.txt");
        ("file_counts", jstr "counts.txt"); ("iterations", "0");
        ("threshold", "0.1"); ("result_precision", "3")].

Definition missing_meta_value : pyval :=
  PDict [("job_id", PStr "j6"); ("file_meta", PStr "missing.txt");
         ("file_counts", PStr "counts.txt"); ("iterations", PInt 0);
         ("threshold", PFloat float_0_1); ("result_precision", PInt 3)].

Definition read_error : exn :=
  Domain ReadFileException
    {| e_str := "Error reading file";
       e_description := Some "File missing.txt not found";
       e_hint := Some "Upload it again" |}.

Definition second_loads (s : string) : result pyval :=
  match assoc s [(dot_plot_body, dot_plot_value);
                 (bare_dot_plot_body, bare_dot_plot_value);
                 (subsampling_body, subsampling_value);
                 (string_iterations_body, string_iterations_value);
                 (missing_meta_body, missing_meta_value)] with
  | Some v => inr v
  | None => demo_loads s
  end.

(** As [demo_env], with the bodies above, a store that lacks
    [missing.txt], a parser that knows ["0"] and a connection that is
    always found closed. *)
Definition second_env (queue_name : string) : Env :=
  {| jobs_queue_name := queue_name;
     json_loads := second_loads;
     format_other := fun _ => "?";
     int_of_str := fun s => if (s =? "0") then Some 0%Z else None;
     float_of_str := fun _ => None;
     splitext_ext := fun _ => ".txt";
     s3_get_object := fun _ key =>
       match key with
       | PStr s =>
           if (s =? "missing.txt") then inl read_error
           else inr ("content of " ++ s)%string
       | _ => inl (Other "ParamValidationError")
       end;
     temporary_directory := fun _ => None;
     named_temporary_file := fun _ _ _ => None;
     write_temporary_file := fun _ _ => None;
     read_data_from_s3_object := fun content _ _ => inr (Frame content);
     to_csv := fun data => match data with Frame t => t end;
     s3_put_object := fun _ _ _ => None;
     cpdb_statistical_analysis_launcher := fun _ _ =>
       inr (Frame "pvalues", Frame "means", Frame "significant_means",
            Frame "deconvoluted");
     cpdb_method_analysis_launcher := fun _ _ =>
       inr (Frame "means", Frame "significant_means", Frame "deconvoluted");
     dot_plot := fun _ _ => inr (Some "png");
     heatmaps_plot := fun _ _ => inr (Some "count png", Some "count log png");
     PlotException_init := fun msg =>
       {| e_str := msg; e_description := None; e_hint := None |};
     is_closed := fun _ => true |}.

(** A complete environment, and the same without [RABBIT_PORT]. *)
Definition full_environ : environment :=
  [("S3_ACCESS_KEY", "key"); ("S3_SECRET_KEY", "secret");
   ("S3_BUCKET_NAME", "bucket"); ("S3_ENDPOINT", "http://s3:9000");
   ("RABBIT_HOST", "rabbit"); ("RABBIT_PORT", "5672");
   ("RABBIT_USER", "guest"); ("RABBIT_PASSWORD", "guest");
   ("RABBIT_JOB_QUEUE", "plot_jobs"); ("RABBIT_RESULT_QUEUE", "results")].

Definition no_port_environ : environment :=
  [("S3_ACCESS_KEY", "key"); ("S3_SECRET_KEY", "secret");
   ("S3_BUCKET_NAME", "bucket"); ("S3_ENDPOINT", "http://s3:9000");
   ("RABBIT_HOST", "rabbit");
   ("RABBIT_USER", "guest"); ("RABBIT_PASSWORD", "guest");
   ("RABBIT_JOB_QUEUE", "plot_jobs"); ("RABBIT_RESULT_QUEUE", "results")].

(** ** Proof tools *)

Lemma new_events_app (w w' : world) (evs : list event) :
  trace w' = trace w ++ evs -> new_events w w' = evs.
Proof.
  intros H. unfold new_events. rewrite H.
  rewrite skipn_app, skipn_all, Nat.sub_diag. reflexivity.
Qed.

Lemma published_app (xs ys : list event) :
  published (xs ++ ys) = published xs ++ published ys.
Proof.
  induction xs as [|x xs IH]; simpl; [reflexivity|].
  destruct x; simpl; rewrite ?IH; reflexivity.
Qed.

Lemma published_handler_events (evs : list event) :
  forallb handler_event evs = true -> published evs = [].
Proof.
  induction evs as [|x xs IH]; simpl; [reflexivity|].
  intros H. apply andb_true_iff in H. destruct H as [Hx Hxs].
  destruct x; simpl in *; try discriminate; auto.
Qed.

Lemma jobs_taken_app (xs ys : list event) :
  jobs_taken (xs ++ ys) = jobs_taken xs ++ jobs_taken ys.
Proof.
  induction xs as [|x xs IH]; simpl; [reflexivity|].
  destruct x as [[m|]| | | | | | | |]; simpl; rewrite ?IH; try reflexivity.
  destruct (negb (body m =? "")); reflexivity.
Qed.

Lemma jobs_taken_handler_events (evs : list event) :
  forallb handler_event evs = true -> jobs_taken evs = [].
Proof.
  induction evs as [|x xs IH]; simpl; [reflexivity|].
  intros H. apply andb_true_iff in H. destruct H as [Hx Hxs].
  destruct x; simpl in *; try discriminate; auto.
Qed.

(** Symbolic execution: split on the next test whose scrutinee is itself
    free of tests. *)
Ltac exec_step :=
  match goal with
  | |- context [match ?x with _ => _ end] =>
      lazymatch x with
      | context [match _ with _ => _ end] => fail
      | _ => destruct x eqn:?
      end
  end.

Ltac unfold_script :=
  unfold handler, process_plot, process_method, dot_plot_results,
    heatmaps_plot_results, statistical_analysis, non_statistical_analysis,
    make_subsampler, read_data_from_s3, write_data_in_s3, write_image_to_s3,
    _from_s3_to_temp, TemporaryDirectory, NamedTemporaryFile, s3_get, s3_put,
    raise_PlotException, splitext,
    bind, lift, ret, raise, emit.

Ltac trace_eq :=
  simpl; repeat rewrite <- app_assoc; simpl;
  first [reflexivity | symmetry; apply app_nil_r].

(** A handler only adds events of its own to the trace, and leaves the job
    queue and the connection alone. *)
Lemma handler_frame (E : Env) (job : message) (w : world) :
  exists evs,
    trace (snd (handler E job w)) = trace w ++ evs /\
    forallb handler_event evs = true /\
    job_queue (snd (handler E job w)) = job_queue w /\
    connection (snd (handler E job w)) = connection w.
Proof.
  unfold_script.
  repeat exec_step;
    (eexists; split; [trace_eq | split; [reflexivity | split; reflexivity]]).
Qed.

Ltac in_list :=
  simpl; repeat (first [left; reflexivity | right]).

(** What a handler that returns has done: the response echoes the
    [job_id] of the body, and every storage key it lists was put in the
    object store during the call. *)
Lemma handler_returns (E : Env) (job : message) (w : world) (resp : pyval) :
  fst (handler E job w) = inr resp ->
  exists j evs,
    body_job_id E job = inr j /\
    resp_job_id resp = Some j /\
    trace (snd (handler E job w)) = trace w ++ evs /\
    (forall k, In k (file_keys resp) -> exists c, In (EvS3Put k c) evs) /\
    (resp_success resp = Some (PBool true) \/
     resp_success resp = Some (PBool false)).
Proof.
  unfold body_job_id. unfold_script.
  repeat exec_step; simpl; intros H; try discriminate H;
    injection H as <-;
    (do 2 eexists; split; [reflexivity | split; [reflexivity | split; [trace_eq |]]]);
    (split; [| simpl; auto]);
    simpl; intros k Hk;
    repeat (destruct Hk as [<- | Hk]; [eexists; in_list |]);
    contradiction.
Qed.

Lemma run_job_return (E : Env) (job : message) (w : world) (resp : pyval) :
  fst (handler E job w) = inr resp ->
  run_job E job w =
    (inr tt, record (EvPublish resp) (snd (reconnect (snd (handler E job w))))).
Proof.
  unfold run_job, try_except, bind, basic_publish, emit.
  destruct (handler E job w) as [r wh]. simpl. intros ->. reflexivity.
Qed.

Lemma run_job_raise (E : Env) (job : message) (w : world) (e : exn) :
  fst (handler E job w) = inl e ->
  run_job E job w =
    match body_job_id E job with
    | inl e' => (inl e', snd (handler E job w))
    | inr j =>
        (inr tt,
         record (EvPublish (failure_for e j))
           (after_reconnect_if_closed E (snd (handler E job w))))
    end.
Proof.
  unfold run_job, try_except, bind, basic_publish, emit, lift,
    reconnect_if_closed, after_reconnect_if_closed.
  destruct (handler E job w) as [r wh]. simpl. intros ->.
  destruct e; destruct (body_job_id E job); simpl; try reflexivity;
    destruct (is_closed E wh); reflexivity.
Qed.

Lemma failure_for_job_id (e : exn) (j : pyval) :
  resp_job_id (failure_for e j) = Some j.
Proof. destruct e; reflexivity. Qed.

Lemma failure_for_success (e : exn) (j : pyval) :
  resp_success (failure_for e j) = Some (PBool false).
Proof. destruct e; reflexivity. Qed.

Lemma trace_after_reconnect_if_closed (E : Env) (w : world) :
  trace (after_reconnect_if_closed E w) =
    trace w ++ (if is_closed E w then [EvConnect] else []).
Proof.
  unfold after_reconnect_if_closed.
  destruct (is_closed E w); simpl; [reflexivity | symmetry; apply app_nil_r].
Qed.

(** One pass through the [try] statement, whatever happens: the handler's
    events, then at most one connection and at most one publication. *)
Lemma run_job_trace (E : Env) (job : message) (w : world) :
  exists hevs tail,
    trace (snd (handler E job w)) = trace w ++ hevs /\
    forallb handler_event hevs = true /\
    trace (snd (run_job E job w)) = trace w ++ hevs ++ tail /\
    job_queue (snd (run_job E job w)) = job_queue w /\
    match fst (handler E job w) with
    | inr resp =>
        fst (run_job E job w) = inr tt /\ tail = [EvConnect; EvPublish resp]
    | inl e =>
        match body_job_id E job with
        | inr j =>
            fst (run_job E job w) = inr tt /\
            tail = (if is_closed E (snd (handler E job w))
                    then [EvConnect] else []) ++ [EvPublish (failure_for e j)]
        | inl e' => fst (run_job E job w) = inl e' /\ tail = []
        end
    end.
Proof.
  destruct (handler_frame E job w) as (hevs & Ht & Hh & Hq & Hc).
  exists hevs.
  destruct (fst (handler E job w)) as [e | resp] eqn:Hr.
  - rewrite (run_job_raise E job w e Hr).
    destruct (body_job_id E job) as [e' | j].
    + exists []. simpl. rewrite app_nil_r. repeat split; assumption.
    + eexists. split; [exact Ht | split; [exact Hh |]].
      simpl. rewrite trace_after_reconnect_if_closed, Ht.
      unfold after_reconnect_if_closed.
      repeat rewrite <- app_assoc.
      split; [reflexivity |].
      split; [| split; reflexivity].
      destruct (is_closed E (snd (handler E job w))); simpl; exact Hq.
  - rewrite (run_job_return E job w resp Hr).
    exists [EvConnect; EvPublish resp]. simpl. rewrite Ht.
    repeat rewrite <- app_assoc. simpl. repeat split; assumption.
Qed.

(** What is published for a job whose [job_id] can be read. *)
Lemma one_job_answer (E : Env) (job : message) (w : world) (j : pyval) :
  body_job_id E job = inr j ->
  exists r,
    published (new_events w (snd (run_job E job w))) = [r] /\
    r = match fst (handler E job w) with
        | inr resp => resp
        | inl e => failure_for e j
        end.
Proof.
  intros Hj.
  destruct (run_job_trace E job w) as (hevs & tail & _ & Hh & Hr & _ & Hcase).
  rewrite (new_events_app _ _ _ Hr).
  rewrite published_app, (published_handler_events _ Hh). simpl.
  destruct (fst (handler E job w)) as [e | resp].
  - rewrite Hj in Hcase. destruct Hcase as [_ ->].
    exists (failure_for e j). split; [| reflexivity].
    destruct (is_closed E (snd (handler E job w))); reflexivity.
  - destruct Hcase as [_ ->]. exists resp. split; reflexivity.
Qed.

(** ** Results *)

(** *** One Result per job *)

(** C1, as stated, fails: a plot job of unknown type is answered by a
    Failure although its handler returns. *)
Lemma unknown_plot_returns_failure :
  ~ one_result_per_message plot_worker {| body := unknown_plot_body |} (queued []).
Proof.
  intros (r & Hp & _ & Hs).
  vm_compute in Hp. injection Hp as <-.
  vm_compute in Hs. discriminate Hs.
Qed.

(** One job: a message whose [job_id] can be read gets exactly one Result
    with that [job_id], the handler's response or a Failure. *)
Lemma run_job_result (E : Env) (job : message) (w : world) (j : pyval) :
  body_job_id E job = inr j ->
  exists r,
    fst (run_job E job w) = inr tt /\
    published (new_events w (snd (run_job E job w))) = [r] /\
    resp_job_id r = Some j /\
    match fst (handler E job w) with
    | inr resp => r = resp
    | inl e => r = failure_for e j /\ resp_success r = Some (PBool false)
    end.
Proof.
  intros Hj.
  destruct (run_job_trace E job w) as (hevs & tail & Ht & Hh & Hr & _ & Hcase).
  rewrite (new_events_app _ _ _ Hr).
  rewrite published_app, (published_handler_events _ Hh). simpl.
  destruct (fst (handler E job w)) as [e | resp] eqn:Hres.
  - rewrite Hj in Hcase. destruct Hcase as [Hfst ->].
    exists (failure_for e j).
    rewrite published_app. simpl.
    split; [exact Hfst | split].
    + destruct (is_closed E (snd (handler E job w))); reflexivity.
    + split; [apply failure_for_job_id |].
      split; [reflexivity | apply failure_for_success].
  - destruct Hcase as [Hfst ->].
    exists resp. split; [exact Hfst | split; [reflexivity |]].
    destruct (handler_returns E job w resp Hres) as (j' & evs & Hj' & Hid & _).
    rewrite Hj in Hj'. injection Hj' as <-.
    split; [exact Hid | reflexivity].
Qed.

(** One pass through the [try] statement that does not raise publishes one
    Result, with the [job_id] of the message. *)
Lemma run_job_ids (E : Env) (job : message) (w : world) :
  exists evs,
    trace (snd (run_job E job w)) = trace w ++ evs /\
    jobs_taken evs = [] /\
    (fst (run_job E job w) = inr tt ->
     map resp_job_id (published evs) = [body_id E job]).
Proof.
  destruct (run_job_trace E job w) as (hevs & tail & _ & Hh & Hr & _ & Hcase).
  exists (hevs ++ tail). split; [exact Hr |].
  rewrite jobs_taken_app, published_app.
  rewrite (jobs_taken_handler_events _ Hh), (published_handler_events _ Hh).
  simpl. unfold body_id.
  destruct (fst (handler E job w)) as [e | resp] eqn:Hres.
  - destruct (body_job_id E job) as [e' | j]; destruct Hcase as [Hfst ->].
    + split; [reflexivity |]. intros Habs. rewrite Hfst in Habs.
      discriminate Habs.
    + destruct (is_closed E (snd (handler E job w))); simpl;
        rewrite failure_for_job_id; auto.
  - destruct Hcase as [_ ->].
    destruct (handler_returns E job w resp Hres) as (j & evs & Hj & Hid & _).
    rewrite Hj. simpl. rewrite Hid. auto.
Qed.

(** The loop: unless an exception leaves it, the Results published are, in
    order, those of the messages handed to a handler. *)
Lemma worker_loop_ids (E : Env) (fuel : nat) :
  forall (n : nat) (w : world),
    exists evs,
      trace (snd (worker_loop E fuel n w)) = trace w ++ evs /\
      match fst (worker_loop E fuel n w) with
      | Crashed _ => True
      | _ => map resp_job_id (published evs) = map (body_id E) (jobs_taken evs)
      end.
Proof.
  induction fuel as [|fuel IH]; intros n w; simpl.
  - exists []. rewrite app_nil_r.
    destruct ((n <? 3)%nat && consume_more_jobs); simpl; auto.
  - destruct ((n <? 3)%nat && consume_more_jobs);
      [| exists []; rewrite app_nil_r; simpl; auto].
    unfold basic_get.
    destruct (job_queue w) as [|m rest]; simpl.
    + destruct (IH n (record (EvBasicGet None) w)) as (evs & Ht & Hids).
      exists (EvBasicGet None :: evs).
      rewrite Ht. simpl. rewrite <- app_assoc. auto.
    + set (w1 := {| trace := trace w ++ [EvBasicGet (Some m)];
                    job_queue := rest; connection := connection w |}).
      destruct (negb (body m =? "")) eqn:Hbody.
      * destruct (run_job_ids E m w1) as (jevs & Hjt & Hjn & Hjp).
        destruct (run_job E m w1) as [[e | []] w2]; simpl in *.
        -- exists (EvBasicGet (Some m) :: jevs).
           rewrite Hjt. simpl. rewrite <- app_assoc. auto.
        -- destruct (IH (S n) w2) as (evs & Ht & Hids).
           exists (EvBasicGet (Some m) :: jevs ++ evs).
           rewrite Ht, Hjt. simpl. repeat rewrite <- app_assoc.
           split; [reflexivity |].
           rewrite Hbody, jobs_taken_app, published_app, map_app, Hjn.
           rewrite (Hjp eq_refl). simpl.
           destruct (fst (worker_loop E fuel (S n) w2));
             try exact I; rewrite Hids; reflexivity.
      * destruct (IH n w1) as (evs & Ht & Hids).
        exists (EvBasicGet (Some m) :: evs).
        rewrite Ht. simpl. rewrite <- app_assoc. rewrite Hbody. auto.
Qed.

(** C1, amended.  A message whose body decodes to an object with a [job_id]
    gets exactly one Result with that [job_id]: the handler's response when
    the handler returns and a Failure when the handler raises.  And in a
    run of the worker that no exception aborts, the Results published are, in
    order, one for each message handed to a handler, with its [job_id]. *)
Theorem one_result_per_job (E : Env) :
  (forall (job : message) (w : world) (j : pyval),
     body_job_id E job = inr j ->
     exists r,
       fst (run_job E job w) = inr tt /\
       published (new_events w (snd (run_job E job w))) = [r] /\
       resp_job_id r = Some j /\
       match fst (handler E job w) with
       | inr resp => r = resp
       | inl e => r = failure_for e j /\ resp_success r = Some (PBool false)
       end) /\
  (forall (fuel : nat) (w : world),
     (forall e, fst (worker E fuel w) <> Crashed e) ->
     map resp_job_id (published (run_events E fuel w)) =
       map (body_id E) (jobs_taken (run_events E fuel w))).
Proof.
  split; [apply run_job_result |].
  intros fuel w Hok. unfold run_events, worker in *.
  destruct (worker_loop_ids E fuel 0 (snd (reconnect w))) as (evs & Ht & Hids).
  rewrite (new_events_app w _ (EvConnect :: evs)).
  - simpl.
    destruct (fst (worker_loop E fuel 0 (snd (reconnect w)))) as [k | e | k];
      [exact Hids | destruct (Hok e eq_refl) | exact Hids].
  - rewrite Ht. simpl. rewrite <- app_assoc. reflexivity.
Qed.

Lemma one_result_per_job_witness :
  (exists r,
     fst (run_job method_worker {| body := method_body "j1" "0" |} (queued [])) =
       inr tt /\
     published
       (new_events (queued [])
          (snd (run_job method_worker {| body := method_body "j1" "0" |}
                  (queued [])))) = [r] /\
     resp_job_id r = Some (PStr "j1") /\
     match fst (handler method_worker {| body := method_body "j1" "0" |}
                  (queued [])) with
     | inr resp => r = resp
     | inl e =>
         r = failure_for e (PStr "j1") /\ resp_success r = Some (PBool false)
     end) /\
  map resp_job_id
    (published
       (run_events method_worker 4
          (queued [{| body := method_body "j1" "0" |};
                   {| body := no_file_meta_body |}]))) =
    map (body_id method_worker)
      (jobs_taken
         (run_events method_worker 4
            (queued [{| body := method_body "j1" "0" |};
                     {| body := no_file_meta_body |}]))).
Proof.
  split.
  - apply (proj1 (one_result_per_job method_worker)
             {| body := method_body "j1" "0" |} (queued []) (PStr "j1")).
    vm_compute. reflexivity.
  - apply (proj2 (one_result_per_job method_worker) 4
             (queued [{| body := method_body "j1" "0" |};
                      {| body := no_file_meta_body |}])).
    intros e. vm_compute. discriminate.
Defined.

(** *** A payload without [job_id] *)

(** C2, the code at a failing input: the first message lacks [job_id].  The
    handler's [KeyError] is caught, the [except] clause raises it again while
    building the Failure, nothing is published and the loop is left with the
    second job still queued. *)
Theorem missing_job_id_aborts_batch (fuel : nat) :
  let run :=
    worker method_worker (S fuel)
      (queued [{| body := no_job_id_body |};
               {| body := method_body "j1" "0" |}]) in
  fst (handler method_worker {| body := no_job_id_body |} (queued [])) =
    inl (KeyError "job_id") /\
  fst run = Crashed (KeyError "job_id") /\
  published (trace (snd run)) = [] /\
  job_queue (snd run) = [{| body := method_body "j1" "0" |}].
Proof. vm_compute. repeat split; reflexivity. Qed.

(** *** The job budget *)

(** What one call of [run_job] adds to the counts. *)
Lemma run_job_counts (E : Env) (job : message) (w : world) :
  exists evs,
    trace (snd (run_job E job w)) = trace w ++ evs /\
    jobs_taken evs = [] /\
    job_queue (snd (run_job E job w)) = job_queue w /\
    match fst (run_job E job w) with
    | inr _ => length (published evs) = 1
    | inl _ => published evs = []
    end.
Proof.
  destruct (run_job_trace E job w) as (hevs & tail & _ & Hh & Hr & Hq & Hcase).
  exists (hevs ++ tail). split; [exact Hr |].
  rewrite jobs_taken_app, published_app.
  rewrite (jobs_taken_handler_events _ Hh), (published_handler_events _ Hh).
  simpl.
  destruct (fst (handler E job w)) as [e | resp].
  - destruct (body_job_id E job) as [e' | j]; destruct Hcase as [-> ->].
    + auto.
    + destruct (is_closed E (snd (handler E job w))); simpl; auto.
  - destruct Hcase as [-> ->]. simpl. auto.
Qed.

(** A job whose [job_id] can be read never makes the [try] statement
    raise, and the statement leaves the queue alone. *)
Lemma run_job_answers (E : Env) (job : message) (w : world) (j : pyval) :
  body_job_id E job = inr j ->
  fst (run_job E job w) = inr tt /\
  job_queue (snd (run_job E job w)) = job_queue w.
Proof.
  intros Hj.
  destruct (run_job_trace E job w) as (hevs & tail & _ & _ & _ & Hq & Hcase).
  split; [| exact Hq].
  destruct (fst (handler E job w)).
  - rewrite Hj in Hcase. apply Hcase.
  - apply Hcase.
Qed.

(** The loop invariant: [jobs_runned] counts the messages handed to a
    handler, never exceeds three, and each of them was answered by one
    publication unless an exception left the loop. *)
Lemma worker_loop_counts (E : Env) (fuel : nat) :
  forall (n : nat) (w : world),
    n <= 3 ->
    exists evs,
      trace (snd (worker_loop E fuel n w)) = trace w ++ evs /\
      n + length (jobs_taken evs) <= 3 /\
      length (published evs) <= length (jobs_taken evs) /\
      match fst (worker_loop E fuel n w) with
      | Exited k =>
          k = 3 /\ n + length (jobs_taken evs) = 3 /\
          length (published evs) = length (jobs_taken evs)
      | Running k =>
          k = n + length (jobs_taken evs) /\ k < 3 /\
          length (published evs) = length (jobs_taken evs)
      | Crashed _ => True
      end.
Proof.
  induction fuel as [|fuel IH]; intros n w Hn; simpl.
  - destruct (n <? 3)%nat eqn:Hlt; simpl.
    + apply Nat.ltb_lt in Hlt.
      exists []. rewrite app_nil_r. simpl. repeat split; lia.
    + apply Nat.ltb_ge in Hlt.
      exists []. rewrite app_nil_r. simpl. repeat split; lia.
  - destruct (n <? 3)%nat eqn:Hlt; simpl.
    2:{ apply Nat.ltb_ge in Hlt.
        exists []. rewrite app_nil_r. simpl. repeat split; lia. }
    apply Nat.ltb_lt in Hlt.
    unfold basic_get.
    destruct (job_queue w) as [|m rest] eqn:Hq; simpl.
    + destruct (IH n (record (EvBasicGet None) w) Hn) as (evs & Ht & Hle & Hp & Hst).
      exists (EvBasicGet None :: evs).
      rewrite Ht. simpl. rewrite <- app_assoc. simpl.
      repeat split; try assumption.
    + destruct (negb (body m =? "")) eqn:Hbody.
      * set (w1 := {| trace := trace w ++ [EvBasicGet (Some m)];
                      job_queue := rest; connection := connection w |}).
        destruct (run_job_counts E m w1) as (jevs & Hjt & Hjn & _ & Hjp).
        destruct (run_job E m w1) as [[e | u] w2]; simpl in *.
        -- exists (EvBasicGet (Some m) :: jevs).
           rewrite Hjt. simpl. rewrite <- app_assoc. simpl.
           rewrite Hbody, Hjn, Hjp. simpl. repeat split; lia.
        -- destruct (IH (S n) w2 Hlt) as (evs & Ht & Hle & Hp & Hst).
           exists (EvBasicGet (Some m) :: jevs ++ evs).
           rewrite Ht, Hjt. simpl. repeat rewrite <- app_assoc. simpl.
           rewrite Hbody. simpl.
           rewrite jobs_taken_app, published_app, Hjn, !length_app, Hjp.
           simpl.
           split; [reflexivity |]. split; [lia |]. split; [lia |].
           destruct (fst (worker_loop E fuel (S n) w2)); try exact I; lia.
      * set (w1 := {| trace := trace w ++ [EvBasicGet (Some m)];
                      job_queue := rest; connection := connection w |}).
        destruct (IH n w1 Hn) as (evs & Ht & Hle & Hp & Hst).
        exists (EvBasicGet (Some m) :: evs).
        rewrite Ht. simpl. rewrite <- app_assoc. simpl.
        rewrite Hbody. repeat split; try assumption.
Qed.

(** An empty poll does not count: with no job queued the loop goes on for
    as long as it is allowed to. *)
Lemma worker_loop_empty (E : Env) (fuel : nat) :
  forall (n : nat) (w : world),
    n < 3 -> job_queue w = [] -> fst (worker_loop E fuel n w) = Running n.
Proof.
  induction fuel as [|fuel IH]; intros n w Hn Hq; simpl;
    destruct (Nat.ltb_spec n 3) as [_ | Hge]; try lia; simpl.
  - reflexivity.
  - unfold basic_get. rewrite Hq. simpl. apply IH; [exact Hn | exact Hq].
Qed.

(** With enough answerable jobs queued the loop ends after the third. *)
Lemma worker_loop_drains (E : Env) (pre : list message) :
  forall (fuel n : nat) (w : world) (rest : list message),
    n + length pre = 3 ->
    job_queue w = pre ++ rest ->
    forallb (processable E) pre = true ->
    length pre <= fuel ->
    fst (worker_loop E fuel n w) = Exited 3 /\
    job_queue (snd (worker_loop E fuel n w)) = rest.
Proof.
  induction pre as [|m pre IH]; intros fuel n w rest Hn Hq Hp Hf; simpl in *.
  - assert (n = 3) as -> by lia.
    destruct fuel; simpl; auto.
  - destruct fuel as [|fuel]; [lia |]. simpl.
    destruct (Nat.ltb_spec n 3) as [_ | Hge]; [| lia]. simpl.
    unfold basic_get. rewrite Hq. simpl.
    apply andb_true_iff in Hp. destruct Hp as [Hm Hpre].
    unfold processable in Hm. apply andb_true_iff in Hm.
    destruct Hm as [Hbody Hid]. simpl in Hbody. rewrite Hbody.
    set (w1 := {| trace := trace w ++ [EvBasicGet (Some m)];
                  job_queue := pre ++ rest; connection := connection w |}).
    destruct (body_job_id E m) as [e | j] eqn:Hj; [discriminate Hid |].
    destruct (run_job_answers E m w1 j Hj) as [Hfst Hqueue].
    destruct (run_job E m w1) as [[e | u] w2]; simpl in *; [discriminate Hfst |].
    apply IH; [lia | exact Hqueue | exact Hpre | lia].
Qed.

(** C3, as stated, fails: on an empty queue the loop never stops. *)
Lemma empty_queue_never_exits : ~ stops_on_empty_queue method_worker.
Proof.
  intros (fuel & n & H). unfold worker in H.
  rewrite worker_loop_empty in H; [discriminate H | lia | reflexivity].
Qed.

(** C3, amended: a run hands at most three jobs to a handler and publishes
    at most three Results, whatever is queued; the loop is left normally
    only after the third job; an empty poll is not counted, so on an empty
    queue the loop keeps polling; and with three answerable jobs queued the
    loop ends after them and leaves the rest of the queue untouched. *)
Theorem three_jobs_per_run (E : Env) (fuel : nat) (w : world) :
  length (jobs_taken (run_events E fuel w)) <= 3 /\
  length (published (run_events E fuel w)) <= 3 /\
  (forall k, fst (worker E fuel w) = Exited k ->
             k = 3 /\ length (jobs_taken (run_events E fuel w)) = 3) /\
  (job_queue w = [] -> fst (worker E fuel w) = Running 0) /\
  (forall pre rest,
     job_queue w = pre ++ rest ->
     length pre = 3 ->
     forallb (processable E) pre = true ->
     3 <= fuel ->
     fst (worker E fuel w) = Exited 3 /\
     job_queue (snd (worker E fuel w)) = rest).
Proof.
  unfold run_events, worker.
  set (w0 := snd (reconnect w)).
  assert (Hw0 : trace w0 = trace w ++ [EvConnect]) by reflexivity.
  assert (Hq0 : job_queue w0 = job_queue w) by reflexivity.
  destruct (worker_loop_counts E fuel 0 w0) as (evs & Ht & Hle & Hp & Hst);
    [lia |].
  assert (Hev : new_events w (snd (worker_loop E fuel 0 w0)) = EvConnect :: evs).
  { apply new_events_app. rewrite Ht, Hw0, <- app_assoc. reflexivity. }
  rewrite Hev. simpl.
  split; [lia |]. split; [lia |]. split; [| split].
  - intros k Hk. rewrite Hk in Hst. lia.
  - intros Hq. apply worker_loop_empty; [lia | congruence].
  - intros pre rest Hq Hlen Hproc Hfuel.
    apply worker_loop_drains with (pre := pre);
      [lia | congruence | exact Hproc | lia].
Qed.

Lemma three_jobs_per_run_witness :
  fst (worker method_worker 5
         (queued [{| body := method_body "j1" "0" |};
                  {| body := no_file_meta_body |};
                  {| body := method_body "j1" "10" |};
                  {| body := method_body "j3" "0" |}])) = Exited 3 /\
  job_queue
    (snd (worker method_worker 5
            (queued [{| body := method_body "j1" "0" |};
                     {| body := no_file_meta_body |};
                     {| body := method_body "j1" "10" |};
                     {| body := method_body "j3" "0" |}]))) =
    [{| body := method_body "j3" "0" |}].
Proof.
  apply (proj2 (proj2 (proj2 (proj2
           (three_jobs_per_run method_worker 5
              (queued [{| body := method_body "j1" "0" |};
                       {| body := no_file_meta_body |};
                       {| body := method_body "j1" "10" |};
                       {| body := method_body "j3" "0" |}])))))
           [{| body := method_body "j1" "0" |};
            {| body := no_file_meta_body |};
            {| body := method_body "j1" "10" |}]
           [{| body := method_body "j3" "0" |}]).
  - reflexivity.
  - reflexivity.
  - vm_compute. reflexivity.
  - repeat constructor.
Defined.

(** *** The files of a method job *)

(** C4, as stated, fails: with [iterations = 10] the Success lists
    [significant_means_simple_j1.txt], so the key of the non-statistical
    path is not among its files, with or without the [.txt] the code
    appends; and with [iterations = 0] every key ends in [.txt]. *)
Lemma statistical_keys_not_a_superset :
  exists resp0 resp10,
    fst (process_method method_worker {| body := method_body "j1" "0" |}
           (queued [])) = inr resp0 /\
    fst (process_method method_worker {| body := method_body "j1" "10" |}
           (queued [])) = inr resp10 /\
    ~ files_as_specified "" "j1" false resp0 /\
    ~ files_as_specified "" "j1" true resp10 /\
    ~ files_as_specified ".txt" "j1" true resp10.
Proof.
  do 2 eexists.
  split; [vm_compute; reflexivity |].
  split; [vm_compute; reflexivity |].
  split; [| split].
  - intros H. destruct (H "means_simple_j1") as [_ Hk].
    assert (Hin : In "means_simple_j1" (specified_keys "" "j1" false))
      by (vm_compute; auto).
    apply Hk in Hin. vm_compute in Hin.
    repeat (destruct Hin as [Hin | Hin]; [discriminate Hin |]). exact Hin.
  - intros H. destruct (H "significant_means_j1") as [_ Hk].
    assert (Hin : In "significant_means_j1" (specified_keys "" "j1" true))
      by (vm_compute; auto).
    apply Hk in Hin. vm_compute in Hin.
    repeat (destruct Hin as [Hin | Hin]; [discriminate Hin |]). exact Hin.
  - intros H. destruct (H "significant_means_j1.txt") as [_ Hk].
    assert (Hin : In "significant_means_j1.txt" (specified_keys ".txt" "j1" true))
      by (vm_compute; auto).
    apply Hk in Hin. vm_compute in Hin.
    repeat (destruct Hin as [Hin | Hin]; [discriminate Hin |]). exact Hin.
Qed.

(** C4, amended: a method job that succeeds was a JSON object with a
    [job_id] and an [iterations] field, and its Success maps
    - when [iterations] is 0 (false): [means], [significant_means] and
      [deconvoluted] to [means_simple_<id>.txt],
      [significant_means_<id>.txt] and [deconvoluted_simple_<id>.txt];
    - otherwise: [pvalues], [means], [significant_means] and [deconvoluted]
      to [pvalues_simple_<id>.txt], [means_simple_<id>.txt],
      [significant_means_simple_<id>.txt] and
      [deconvoluted_simple_<id>.txt]. *)
Theorem method_job_files (E : Env) (job : message) (w : world) (resp : pyval) :
  fst (process_method E job w) = inr resp ->
  exists md j it,
    json_loads E (body job) = inr md /\
    py_getitem md "job_id" = inr j /\
    py_getitem md "iterations" = inr it /\
    resp_job_id resp = Some j /\
    resp_success resp = Some (PBool true) /\
    file_names resp =
      (if py_truthy it
       then ["pvalues"; "means"; "significant_means"; "deconvoluted"]
       else ["means"; "significant_means"; "deconvoluted"]) /\
    file_keys resp =
      (if py_truthy it
       then [("pvalues_simple_" ++ py_format E j ++ ".txt")%string;
             ("means_simple_" ++ py_format E j ++ ".txt")%string;
             ("significant_means_simple_" ++ py_format E j ++ ".txt")%string;
             ("deconvoluted_simple_" ++ py_format E j ++ ".txt")%string]
       else [("means_simple_" ++ py_format E j ++ ".txt")%string;
             ("significant_means_" ++ py_format E j ++ ".txt")%string;
             ("deconvoluted_simple_" ++ py_format E j ++ ".txt")%string]).
Proof.
  unfold_script.
  repeat exec_step; simpl; intros H; try discriminate H;
    injection H as <-;
    (do 3 eexists;
     split; [reflexivity |];
     split; [eassumption |];
     split; [eassumption |]);
    match goal with
    | Ht : py_truthy _ = _ |- _ => rewrite Ht
    end;
    repeat split; reflexivity.
Qed.

Lemma method_job_files_witness :
  exists md j it,
    json_loads method_worker (method_body "j1" "10") = inr md /\
    py_getitem md "job_id" = inr j /\
    py_getitem md "iterations" = inr it /\
    resp_job_id
      (success_response (PStr "j1") (statistical_files method_worker (PStr "j1"))) =
      Some j /\
    resp_success
      (success_response (PStr "j1") (statistical_files method_worker (PStr "j1"))) =
      Some (PBool true) /\
    file_names
      (success_response (PStr "j1") (statistical_files method_worker (PStr "j1"))) =
      (if py_truthy it
       then ["pvalues"; "means"; "significant_means"; "deconvoluted"]
       else ["means"; "significant_means"; "deconvoluted"]) /\
    file_keys
      (success_response (PStr "j1") (statistical_files method_worker (PStr "j1"))) =
      (if py_truthy it
       then [("pvalues_simple_" ++ py_format method_worker j ++ ".txt")%string;
             ("means_simple_" ++ py_format method_worker j ++ ".txt")%string;
             ("significant_means_simple_" ++ py_format method_worker j
              ++ ".txt")%string;
             ("deconvoluted_simple_" ++ py_format method_worker j
              ++ ".txt")%string]
       else [("means_simple_" ++ py_format method_worker j ++ ".txt")%string;
             ("significant_means_" ++ py_format method_worker j
              ++ ".txt")%string;
             ("deconvoluted_simple_" ++ py_format method_worker j
              ++ ".txt")%string]).
Proof.
  apply (method_job_files method_worker {| body := method_body "j1" "10" |}
           (queued [])).
  vm_compute. reflexivity.
Defined.

(** *** The broker connection *)

(** C5, as stated, fails: after a handler that returns, a connection is
    made although the current one is open. *)
Lemma success_path_always_reconnects :
  ~ rebuilt_only_when_closed method_worker
      {| body := method_body "j1" "0" |} (queued []).
Proof.
  intros H.
  assert (Hin : In EvConnect
                  (new_events (queued [])
                     (snd (run_job method_worker
                             {| body := method_body "j1" "0" |} (queued [])))))
    by (vm_compute; auto 10).
  apply H in Hin. vm_compute in Hin. discriminate Hin.
Qed.

(** C5, amended: neither the dequeue nor the handler touches the
    connection.  When the handler returns, a new connection is made
    unconditionally, immediately before the publication.  When the handler
    raises and the [job_id] can be read, a new connection is made exactly
    when the current one reports closed, again immediately before the
    publication; otherwise the connection is the one the job started with. *)
Theorem connection_policy (E : Env) (job : message) (w : world) :
  connection (snd (basic_get w)) = connection w /\
  connection (snd (handler E job w)) = connection w /\
  match fst (handler E job w) with
  | inr resp =>
      new_events (snd (handler E job w)) (snd (run_job E job w)) =
        [EvConnect; EvPublish resp] /\
      connection (snd (run_job E job w)) = S (connection w)
  | inl e =>
      match body_job_id E job with
      | inr j =>
          new_events (snd (handler E job w)) (snd (run_job E job w)) =
            (if is_closed E (snd (handler E job w)) then [EvConnect] else [])
            ++ [EvPublish (failure_for e j)] /\
          connection (snd (run_job E job w)) =
            (if is_closed E (snd (handler E job w))
             then S (connection w) else connection w)
      | inl _ =>
          new_events (snd (handler E job w)) (snd (run_job E job w)) = [] /\
          connection (snd (run_job E job w)) = connection w
      end
  end.
Proof.
  destruct (handler_frame E job w) as (hevs & Ht & Hh & Hq & Hc).
  split.
  { unfold basic_get. destruct (job_queue w); reflexivity. }
  split; [exact Hc |].
  destruct (fst (handler E job w)) as [e | resp] eqn:Hr.
  - rewrite (run_job_raise E job w e Hr).
    destruct (body_job_id E job) as [e' | j]; simpl.
    + split; [| exact Hc].
      apply new_events_app. symmetry. apply app_nil_r.
    + split.
      * apply new_events_app. simpl.
        rewrite trace_after_reconnect_if_closed, <- app_assoc. reflexivity.
      * unfold after_reconnect_if_closed.
        destruct (is_closed E (snd (handler E job w))); simpl;
          rewrite Hc; reflexivity.
  - rewrite (run_job_return E job w resp Hr). simpl.
    split; [| rewrite Hc; reflexivity].
    apply new_events_app. simpl. rewrite <- app_assoc. reflexivity.
Qed.

(** *** Unknown plot types *)

Lemma py_eq_str_false (t : pyval) (s : string) :
  t <> PStr s -> py_eq_str t s = false.
Proof.
  intros Hne. destruct t; simpl; try reflexivity.
  destruct (String.eqb_spec s0 s) as [-> | _]; [congruence | reflexivity].
Qed.

(** C6: on the plot queue, a job whose [type] is neither ["dot_plot"] nor
    ["heatmaps_plot"] is answered by exactly one Result, the Failure with id
    [UnknownPlotType] whose message ends with the type as [format] prints
    it, that is the type itself when it is a string. *)
Theorem unknown_plot_type (E : Env) (job : message) (w : world)
    (md j t : pyval) :
  jobs_queue_name E = "plot_jobs" ->
  json_loads E (body job) = inr md ->
  py_getitem md "job_id" = inr j ->
  py_get md "type" PNone = inr t ->
  t <> PStr "dot_plot" ->
  t <> PStr "heatmaps_plot" ->
  fst (run_job E job w) = inr tt /\
  published (new_events w (snd (run_job E job w))) =
    [PDict [("job_id", j);
            ("success", PBool false);
            ("error",
             PDict [("id", PStr "UnknownPlotType");
                    ("message",
                     PStr ("Given plot type does not exist: "
                           ++ py_format E t)%string)])]] /\
  (forall s, t = PStr s -> py_format E t = s).
Proof.
  intros Hname Hmd Hj Ht Hdot Hheat.
  apply py_eq_str_false in Hdot. apply py_eq_str_false in Hheat.
  set (resp := failure_response j "UnknownPlotType"
                 ("Given plot type does not exist: " ++ py_format E t)%string).
  assert (Hh : handler E job w = (inr resp, w)).
  { unfold handler, process_plot, bind, lift, ret.
    rewrite Hname. simpl. rewrite Hmd, Hj, Ht, Hdot, Hheat. reflexivity. }
  rewrite (run_job_return E job w resp) by (rewrite Hh; reflexivity).
  rewrite Hh. simpl.
  split; [reflexivity |]. split.
  - rewrite (new_events_app w _ [EvConnect; EvPublish resp]).
    + reflexivity.
    + simpl. rewrite <- app_assoc. reflexivity.
  - intros s ->. reflexivity.
Qed.

Lemma unknown_plot_type_witness :
  fst (run_job plot_worker {| body := unknown_plot_body |} (queued [])) =
    inr tt /\
  published
    (new_events (queued [])
       (snd (run_job plot_worker {| body := unknown_plot_body |} (queued [])))) =
    [PDict [("job_id", PStr "j1");
            ("success", PBool false);
            ("error",
             PDict [("id", PStr "UnknownPlotType");
                    ("message",
                     PStr ("Given plot type does not exist: "
                           ++ py_format plot_worker (PStr "unknown_type"))%string)])]] /\
  (forall s, PStr "unknown_type" = PStr s ->
             py_format plot_worker (PStr "unknown_type") = s).
Proof.
  apply (unknown_plot_type plot_worker {| body := unknown_plot_body |}
           (queued []) unknown_plot_value (PStr "j1") (PStr "unknown_type")).
  - reflexivity.
  - vm_compute. reflexivity.
  - reflexivity.
  - reflexivity.
  - discriminate.
  - discriminate.
Defined.

(** *** Unclassified exceptions *)

(** C7: when the handler raises an exception that is none of the seven
    domain classes, for a message whose body decodes to an object with a
    [job_id], the [try] statement does not raise and exactly one Result is
    published: the Failure with id [unknown_error] and the empty message,
    whatever the diagnostic text of the exception. *)
Theorem unclassified_error_is_generic (E : Env) (job : message) (w : world)
    (detail : string) (md j : pyval) :
  fst (handler E job w) = inl (Other detail) ->
  json_loads E (body job) = inr md ->
  py_getitem md "job_id" = inr j ->
  fst (run_job E job w) = inr tt /\
  published (new_events w (snd (run_job E job w))) =
    [PDict [("job_id", j);
            ("success", PBool false);
            ("error",
             PDict [("id", PStr "unknown_error"); ("message", PStr "")])]].
Proof.
  intros Hr Hmd Hj.
  destruct (run_job_trace E job w) as (hevs & tail & _ & Hh & Ht & _ & Hcase).
  rewrite (new_events_app _ _ _ Ht).
  rewrite published_app, (published_handler_events _ Hh). simpl.
  rewrite Hr in Hcase.
  unfold body_job_id in Hcase. rewrite Hmd, Hj in Hcase.
  destruct Hcase as [Hfst ->]. split; [exact Hfst |].
  destruct (is_closed E (snd (handler E job w))); reflexivity.
Qed.

Lemma unclassified_error_is_generic_witness :
  fst (run_job method_worker {| body := no_file_meta_body |} (queued [])) =
    inr tt /\
  published
    (new_events (queued [])
       (snd (run_job method_worker {| body := no_file_meta_body |} (queued [])))) =
    [PDict [("job_id", PStr "j2");
            ("success", PBool false);
            ("error",
             PDict [("id", PStr "unknown_error"); ("message", PStr "")])]].
Proof.
  apply (unclassified_error_is_generic method_worker
           {| body := no_file_meta_body |} (queued []) "KeyError: 'file_meta'"
           no_file_meta_value (PStr "j2")).
  - vm_compute. reflexivity.
  - vm_compute. reflexivity.
  - reflexivity.
Defined.

(** *** The two analyses *)





(** The float the literal [0.05] denotes is 5/100 rounded to nearest. *)
Example default_pvalue_is_5_per_100 :
  SFdiv 53 1024 (float_of_Z 5) (float_of_Z 100) = default_pvalue.
Proof. vm_compute. reflexivity. Qed.

Example float_0_1_is_1_per_10 :
  SFdiv 53 1024 (float_of_Z 1) (float_of_Z 10) = float_0_1.
Proof. vm_compute. reflexivity. Qed.

(** [float] of an integer rounds, and overflows. *)
Example float_of_large_int_rounds :
  py_float method_worker (PInt (2 ^ 53 + 1)) =
    inr (S754_finite false 4503599627370496 1).
Proof. vm_compute. reflexivity. Qed.

Example float_of_huge_int_overflows :
  py_float method_worker (PInt (10 ^ 400)) = inl OverflowError.
Proof. vm_compute. reflexivity. Qed.

Example non_statistical_launch :
  launches
    (new_events (queued [])
       (snd (process_method method_worker
               {| body := method_body "j1" "0" |} (queued [])))) =
    [EvMethodLaunch
       {| ma_meta := Frame "content of meta.txt";
          ma_counts := Frame "content of counts.txt";
          ma_threshold := float_0_1;
          ma_result_precision := 3%Z;
          ma_subsampler := None |}].
Proof. vm_compute. reflexivity. Qed.

Example statistical_launch :
  launches
    (new_events (queued [])
       (snd (process_method method_worker
               {| body := method_body "j1" "10" |} (queued [])))) =
    [EvStatLaunch
       {| sa_meta := Frame "content of meta.txt";
          sa_counts := Frame "content of counts.txt";
          sa_threshold := float_0_1;
          sa_iterations := 10%Z;
          sa_debug_seed := (-1)%Z;
          sa_threads := 4%Z;
          sa_result_precision := 3%Z;
          sa_pvalue := default_pvalue;
          sa_subsampler := None |}].
Proof. vm_compute. reflexivity. Qed.

(** *** Files are stored before the Success is published *)

Lemma split_at_publish (xs : list event) :
  forall (ys pre post : list event) (r : pyval),
    xs ++ ys = pre ++ EvPublish r :: post ->
    (exists post', xs = pre ++ EvPublish r :: post') \/
    (exists pre', pre = xs ++ pre' /\ ys = pre' ++ EvPublish r :: post).
Proof.
  induction xs as [|x xs IH]; intros ys pre post r H; simpl in H.
  - right. exists pre. auto.
  - destruct pre as [|p pre]; simpl in H; injection H as -> H.
    + left. exists xs. reflexivity.
    + destruct (IH _ _ _ _ H) as [[post' ->] | [pre' [-> ->]]].
      * left. exists post'. reflexivity.
      * right. exists pre'. auto.
Qed.

Lemma stored_before_published_app (xs ys : list event) :
  stored_before_published xs ->
  stored_before_published ys ->
  stored_before_published (xs ++ ys).
Proof.
  intros Hx Hy pre r post Heq Hs k Hk.
  destruct (split_at_publish _ _ _ _ _ Heq) as [[post' ->] | [pre' [-> ->]]].
  - apply (Hx pre r post' eq_refl Hs k Hk).
  - destruct (Hy pre' r post eq_refl Hs k Hk) as [c Hc].
    exists c. apply in_or_app. right. exact Hc.
Qed.

Lemma stored_before_published_quiet (evs : list event) :
  published evs = [] -> stored_before_published evs.
Proof.
  intros Hp pre r post ->.
  rewrite published_app in Hp. simpl in Hp.
  destruct (published pre); discriminate Hp.
Qed.

Lemma run_job_stored_before_published (E : Env) (job : message) (w : world) :
  exists evs,
    trace (snd (run_job E job w)) = trace w ++ evs /\
    stored_before_published evs.
Proof.
  destruct (run_job_trace E job w) as (hevs & tail & Hht & Hh & Ht & _ & Hcase).
  exists (hevs ++ tail). split; [exact Ht |].
  intros pre r post Heq Hs k Hk.
  destruct (split_at_publish _ _ _ _ _ Heq) as [[post' ->] | [pre' [-> Htail]]].
  { apply published_handler_events in Hh.
    rewrite published_app in Hh. simpl in Hh.
    destruct (published pre); discriminate Hh. }
  destruct (fst (handler E job w)) as [e | resp] eqn:Hr.
  - assert (Hfail : resp_success r = Some (PBool false)).
    { destruct (body_job_id E job) as [e' | j]; destruct Hcase as [_ ->].
      - destruct pre'; discriminate Htail.
      - destruct (is_closed E (snd (handler E job w))); simpl in Htail.
        + destruct pre' as [|p1 [|p2 pre']]; simpl in Htail;
            try discriminate Htail.
          * injection Htail as _ <- _. apply failure_for_success.
          * injection Htail as _ _ Habs. destruct pre'; discriminate Habs.
        + destruct pre' as [|p1 pre']; simpl in Htail.
          * injection Htail as <- _. apply failure_for_success.
          * injection Htail as _ Habs. destruct pre'; discriminate Habs. }
    rewrite Hfail in Hs. discriminate Hs.
  - destruct Hcase as [_ ->].
    destruct pre' as [|p1 [|p2 pre']]; simpl in Htail; try discriminate Htail.
    + injection Htail as _ <- _.
      destruct (handler_returns E job w resp Hr)
        as (j & evs & _ & _ & Hevs & Hput & _).
      rewrite Hht in Hevs. apply app_inv_head in Hevs. subst evs.
      destruct (Hput k Hk) as [c Hc].
      exists c. apply in_or_app. left. exact Hc.
    + injection Htail as _ _ Habs. destruct pre'; discriminate Habs.
Qed.

(** A property of event lists that holds of every dequeue and of every pass
    through the [try] statement, and is kept by concatenation, holds of what
    the loop adds to the trace. *)
Lemma worker_loop_events (E : Env) (P : list event -> Prop) :
  P [] ->
  (forall xs ys, P xs -> P ys -> P (xs ++ ys)) ->
  (forall job, P [EvBasicGet job]) ->
  (forall m w, exists evs,
      trace (snd (run_job E m w)) = trace w ++ evs /\ P evs) ->
  forall (fuel n : nat) (w : world),
    exists evs,
      trace (snd (worker_loop E fuel n w)) = trace w ++ evs /\ P evs.
Proof.
  intros Hnil Happ Hget Hjob.
  induction fuel as [|fuel IH]; intros n w; simpl.
  - exists []. rewrite app_nil_r.
    destruct ((n <? 3)%nat && consume_more_jobs); auto.
  - destruct ((n <? 3)%nat && consume_more_jobs);
      [| exists []; rewrite app_nil_r; auto].
    unfold basic_get.
    destruct (job_queue w) as [|m rest]; simpl.
    + destruct (IH n (record (EvBasicGet None) w)) as (evs & Ht & HP).
      exists ([EvBasicGet None] ++ evs).
      rewrite Ht. simpl. rewrite <- app_assoc.
      split; [reflexivity | apply (Happ [_] evs); auto].
    + set (w1 := {| trace := trace w ++ [EvBasicGet (Some m)];
                    job_queue := rest; connection := connection w |}).
      destruct (negb (body m =? "")).
      * destruct (Hjob m w1) as (jevs & Hjt & HjP).
        destruct (run_job E m w1) as [[e | u] w2]; simpl in *.
        -- exists ([EvBasicGet (Some m)] ++ jevs).
           rewrite Hjt. simpl. rewrite <- app_assoc.
           split; [reflexivity | apply (Happ [_] jevs); auto].
        -- destruct (IH (S n) w2) as (evs & Ht & HP).
           exists ([EvBasicGet (Some m)] ++ jevs ++ evs).
           rewrite Ht, Hjt. simpl. repeat rewrite <- app_assoc.
           split; [reflexivity | apply (Happ [_] (jevs ++ evs)); auto].
      * destruct (IH n w1) as (evs & Ht & HP).
        exists ([EvBasicGet (Some m)] ++ evs).
        rewrite Ht. simpl. rewrite <- app_assoc.
        split; [reflexivity | apply (Happ [_] evs); auto].
Qed.

(** C9: in a run of the worker, whenever a Success is published, every
    storage key listed in its [files] was put in the object store earlier
    in the run. *)
Theorem writes_before_publish (E : Env) (fuel : nat) (w : world)
    (pre post : list event) (r : pyval) :
  run_events E fuel w = pre ++ EvPublish r :: post ->
  resp_success r = Some (PBool true) ->
  forall k, In k (file_keys r) -> exists c, In (EvS3Put k c) pre.
Proof.
  assert (H : stored_before_published (run_events E fuel w)).
  { unfold run_events, worker.
    destruct (worker_loop_events E stored_before_published) with
      (fuel := fuel) (n := 0) (w := snd (reconnect w)) as (evs & Ht & Hevs).
    - apply stored_before_published_quiet. reflexivity.
    - apply stored_before_published_app.
    - intros job. apply stored_before_published_quiet. reflexivity.
    - apply run_job_stored_before_published.
    - rewrite (new_events_app w _ ([EvConnect] ++ evs)).
      + apply stored_before_published_app; [| exact Hevs].
        apply stored_before_published_quiet. reflexivity.
      + rewrite Ht. simpl. rewrite <- app_assoc. reflexivity. }
  exact (H pre r post).
Qed.

Lemma writes_before_publish_witness :
  exists c,
    In (EvS3Put "significant_means_simple_j1.txt" c)
       (firstn 10
          (run_events method_worker 2
             (queued [{| body := method_body "j1" "10" |}]))).
Proof.
  apply (writes_before_publish method_worker 2
           (queued [{| body := method_body "j1" "10" |}])
           (firstn 10
              (run_events method_worker 2
                 (queued [{| body := method_body "j1" "10" |}])))
           [EvBasicGet None]
           (success_response (PStr "j1")
              (statistical_files method_worker (PStr "j1")))).
  - vm_compute. reflexivity.
  - reflexivity.
  - vm_compute. auto.
Defined.

(** *** A heatmaps plot that leaves no file *)




(** ** Further properties of the script *)

(** *** Start-up *)

Lemma load_config_find (environ : environment) :
  match load_config environ with
  | inl k => find (unset environ) required_variables = Some k
  | inr c =>
      find (unset environ) required_variables = None /\
      getenv "RABBIT_JOB_QUEUE" environ = Some (Config.jobs_queue_name c)
  end.
Proof.
  unfold load_config, environ_item.
  cbv [find required_variables unset].
  repeat match goal with
         | |- context [getenv ?k environ] => destruct (getenv k environ)
         end;
    simpl; auto.
Qed.

(** X1: the configuration fails exactly on the first of the ten variables,
    in the order of the source, that is not set; it loads when none is
    missing. *)
Theorem load_config_first_missing (environ : environment) (k : string) :
  load_config environ = inl k <->
  find (unset environ) required_variables = Some k.
Proof.
  pose proof (load_config_find environ) as H.
  destruct (load_config environ) as [k' | c].
  - rewrite H. split; intros Heq; injection Heq as ->; reflexivity.
  - destruct H as [H _]. rewrite H. split; intros Heq; discriminate Heq.
Qed.

(** X2: when a variable is missing the script logs its name and exits with
    code 1 before anything is dequeued, fetched or published.  When none is
    missing it builds its clients and its first connection from the
    configuration; an exception raised there ends the script, again before
    anything is dequeued, fetched or published; only otherwise does the
    worker run, on the queue named by [RABBIT_JOB_QUEUE]. *)
Theorem script_needs_its_configuration (environ : environment)
    (start_up : Config.t -> world -> option exn) (E : Env)
    (fuel : nat) (w : world) :
  match find (unset environ) required_variables with
  | Some k =>
      script environ start_up E fuel w =
        (ConfigExit (config_error_message k) 1%Z, w)
  | None =>
      exists c,
        load_config environ = inr c /\
        getenv "RABBIT_JOB_QUEUE" environ = Some (Config.jobs_queue_name c) /\
        match start_up c w with
        | Some e => script environ start_up E fuel w = (StartupError e, w)
        | None =>
            script environ start_up E fuel w =
              (LoopEnd
                 (fst (worker (with_queue (Config.jobs_queue_name c) E) fuel w)),
               snd (worker (with_queue (Config.jobs_queue_name c) E) fuel w))
        end
  end.
Proof.
  pose proof (load_config_find environ) as H.
  unfold script.
  destruct (load_config environ) as [k | c].
  - rewrite H. reflexivity.
  - destruct H as [-> Hq].
    exists c. split; [reflexivity | split; [exact Hq |]].
    destruct (start_up c w); reflexivity.
Qed.

Example script_without_port :
  forall start_up fuel,
    script no_port_environ start_up plot_worker fuel
      (queued [{| body := unknown_plot_body |}]) =
      (ConfigExit "ENVIRONMENT VARIABLE 'RABBIT_PORT' not defined. Please set it"
         1%Z,
       queued [{| body := unknown_plot_body |}]).
Proof. intros start_up fuel. reflexivity. Qed.

(** A port that is set but is not a number: the connection cannot be built,
    and the queued job stays where it is. *)
Example script_with_bad_port :
  forall fuel,
    script full_environ
      (fun c _ => if (Config.rabbit_port c =? "5672") then Some TypeError
                  else None)
      plot_worker fuel (queued [{| body := unknown_plot_body |}]) =
      (StartupError TypeError, queued [{| body := unknown_plot_body |}]).
Proof. intros fuel. reflexivity. Qed.

(** *** Exceptions that leave the loop *)

Lemma handler_without_job_id (E : Env) (job : message) (w : world) (e : exn) :
  body_job_id E job = inl e -> handler E job w = (inl e, w).
Proof.
  unfold body_job_id, handler, process_plot, process_method, bind, lift.
  destruct (jobs_queue_name E =? "plot_jobs");
    destruct (json_loads E (body job)) as [e' | md]; simpl;
    intros H; try (injection H as ->; reflexivity);
    rewrite H; reflexivity.
Qed.

(** X3: the [try] statement raises exactly when the [job_id] of the
    message cannot be read, and then with the exception of that reading; in
    that case the job left no trace: nothing was fetched, stored or
    published for it. *)
Theorem run_job_raises_iff_no_job_id (E : Env) (job : message) (w : world)
    (e : exn) :
  (fst (run_job E job w) = inl e <-> body_job_id E job = inl e) /\
  (body_job_id E job = inl e -> snd (run_job E job w) = w).
Proof.
  split; [split |].
  - intros Hr.
    destruct (run_job_trace E job w) as (hevs & tail & _ & _ & _ & _ & Hcase).
    destruct (fst (handler E job w)) as [e0 | resp] eqn:Hh.
    + destruct (body_job_id E job) as [e' | j]; destruct Hcase as [Hfst _];
        rewrite Hfst in Hr.
      * injection Hr as ->. reflexivity.
      * discriminate Hr.
    + destruct Hcase as [Hfst _]. rewrite Hfst in Hr. discriminate Hr.
  - intros Hid.
    assert (Hh := handler_without_job_id E job w e Hid).
    rewrite (run_job_raise E job w e) by (rewrite Hh; reflexivity).
    rewrite Hid. reflexivity.
  - intros Hid.
    assert (Hh := handler_without_job_id E job w e Hid).
    rewrite (run_job_raise E job w e) by (rewrite Hh; reflexivity).
    rewrite Hid, Hh. reflexivity.
Qed.

Lemma run_job_raises_iff_no_job_id_witness :
  snd (run_job method_worker {| body := no_job_id_body |} (queued [])) =
    queued [].
Proof.
  apply (proj2 (run_job_raises_iff_no_job_id method_worker
                  {| body := no_job_id_body |} (queued [])
                  (KeyError "job_id"))).
  vm_compute. reflexivity.
Defined.

(** *** What the handlers do and do not do *)

Lemma connects_handler_events (evs : list event) :
  forallb handler_event evs = true -> connects evs = 0.
Proof.
  induction evs as [|x xs IH]; simpl; [reflexivity|].
  intros H. apply andb_true_iff in H. destruct H as [Hx Hxs].
  destruct x; simpl in *; try discriminate; auto.
Qed.

(** X4: a handler never publishes, never makes a connection and never
    takes a job: the job queue and the connection are as it found them. *)
Theorem handlers_leave_the_broker_alone (E : Env) (job : message) (w : world) :
  published (new_events w (snd (handler E job w))) = [] /\
  connects (new_events w (snd (handler E job w))) = 0 /\
  jobs_taken (new_events w (snd (handler E job w))) = [] /\
  job_queue (snd (handler E job w)) = job_queue w /\
  connection (snd (handler E job w)) = connection w.
Proof.
  destruct (handler_frame E job w) as (evs & Ht & Hh & Hq & Hc).
  rewrite (new_events_app _ _ _ Ht).
  rewrite (published_handler_events _ Hh), (connects_handler_events _ Hh),
    (jobs_taken_handler_events _ Hh).
  auto.
Qed.

(** X5: when the handler raises one of the seven domain exceptions and the
    [job_id] can be read, the one Result published has [str(e)] as its id
    and, as its message, the description and the hint of the exception, each
    as [" text."] when present and not empty. *)
Theorem classified_error_is_reported (E : Env) (job : message) (w : world)
    (c : domain_class) (a : exn_attrs) (j : pyval) :
  fst (handler E job w) = inl (Domain c a) ->
  body_job_id E job = inr j ->
  published (new_events w (snd (run_job E job w))) =
    [PDict [("job_id", j);
            ("success", PBool false);
            ("error",
             PDict [("id", PStr (e_str a));
                    ("message",
                     PStr (attr_text (e_description a)
                           ++ attr_text (e_hint a))%string)])]] /\
  attr_text None = "" /\
  attr_text (Some "") = "" /\
  (forall s, s <> "" -> attr_text (Some s) = (" " ++ s ++ ".")%string).
Proof.
  intros Hh Hj.
  destruct (one_job_answer E job w j Hj) as (r & Hp & Hr).
  rewrite Hh in Hr. rewrite Hp, Hr.
  split; [reflexivity |]. split; [reflexivity |]. split; [reflexivity |].
  intros s Hs. unfold attr_text.
  destruct (String.eqb_spec s "") as [-> | _]; [contradiction | reflexivity].
Qed.

Lemma classified_error_is_reported_witness :
  published
    (new_events (queued [])
       (snd (run_job (second_env "method_jobs") {| body := missing_meta_body |}
               (queued [])))) =
    [PDict [("job_id", PStr "j6");
            ("success", PBool false);
            ("error",
             PDict [("id", PStr "Error reading file");
                    ("message",
                     PStr " File missing.txt not found. Upload it again.")])]].
Proof.
  apply (proj1 (classified_error_is_reported (second_env "method_jobs")
                  {| body := missing_meta_body |} (queued [])
                  ReadFileException
                  {| e_str := "Error reading file";
                     e_description := Some "File missing.txt not found";
                     e_hint := Some "Upload it again" |}
                  (PStr "j6") eq_refl eq_refl)).
Defined.

Lemma py_getitem_missing (md : pyval) (k : string) :
  py_lookup md k = None -> exists e, py_getitem md k = inl e.
Proof.
  destruct md; simpl; intros H; try (eexists; reflexivity).
  rewrite H. eexists. reflexivity.
Qed.

Lemma process_method_missing_field (E : Env) (job : message) (w : world)
    (md : pyval) (k : string) :
  json_loads E (body job) = inr md ->
  In k ["job_id"; "file_meta"; "file_counts"; "iterations"; "threshold";
        "result_precision"] ->
  py_lookup md k = None ->
  exists evs,
    trace (snd (process_method E job w)) = trace w ++ evs /\
    (exists e, fst (process_method E job w) = inl e) /\
    launches evs = [] /\
    stored evs = [].
Proof.
  intros Hmd Hk Hnone.
  destruct (py_getitem_missing md k Hnone) as [e0 He0].
  unfold_script. rewrite Hmd. cbv beta iota.
  simpl in Hk.
  repeat (destruct Hk as [<- | Hk]; [| try contradiction]).
  all: repeat exec_step; simpl; try congruence.
  all: eexists; split; [trace_eq |];
    split; [eexists; reflexivity | split; reflexivity].
Qed.

(** X6: a method job whose payload lacks [job_id], [file_meta],
    [file_counts], [iterations], [threshold] or [result_precision] makes the
    handler raise; no launcher is called for it and nothing is put in the
    store. *)
Theorem missing_field_is_never_analysed (E : Env) (job : message) (w : world)
    (md : pyval) (k : string) :
  json_loads E (body job) = inr md ->
  In k ["job_id"; "file_meta"; "file_counts"; "iterations"; "threshold";
        "result_precision"] ->
  py_lookup md k = None ->
  (exists e, fst (process_method E job w) = inl e) /\
  launches (new_events w (snd (process_method E job w))) = [] /\
  stored (new_events w (snd (process_method E job w))) = [].
Proof.
  intros Hmd Hk Hnone.
  destruct (process_method_missing_field E job w md k Hmd Hk Hnone)
    as (evs & Ht & H).
  rewrite (new_events_app _ _ _ Ht). exact H.
Qed.

Lemma missing_field_is_never_analysed_witness :
  (exists e,
     fst (process_method method_worker {| body := no_file_meta_body |}
            (queued [])) = inl e) /\
  launches
    (new_events (queued [])
       (snd (process_method method_worker {| body := no_file_meta_body |}
               (queued [])))) = [] /\
  stored
    (new_events (queued [])
       (snd (process_method method_worker {| body := no_file_meta_body |}
               (queued [])))) = [].
Proof.
  apply (missing_field_is_never_analysed method_worker
           {| body := no_file_meta_body |} (queued [])
           no_file_meta_value "threshold").
  - vm_compute. reflexivity.
  - simpl. auto 10.
  - reflexivity.
Defined.

Lemma handler_stores_reported_keys (E : Env) (job : message) (w : world)
    (resp : pyval) :
  fst (handler E job w) = inr resp ->
  exists evs,
    trace (snd (handler E job w)) = trace w ++ evs /\
    map fst (stored evs) = file_keys resp.
Proof.
  unfold_script.
  repeat exec_step; simpl; intros H; try discriminate H;
    injection H as <-;
    (eexists; split; [trace_eq | reflexivity]).
Qed.

(** X7: a handler that returns has put in the store exactly the keys its
    response lists, in that order, and nothing else. *)
Theorem handler_stores_what_it_reports (E : Env) (job : message) (w : world)
    (resp : pyval) :
  fst (handler E job w) = inr resp ->
  map fst (stored (new_events w (snd (handler E job w)))) = file_keys resp.
Proof.
  intros Hr.
  destruct (handler_stores_reported_keys E job w resp Hr) as (evs & Ht & H).
  rewrite (new_events_app _ _ _ Ht). exact H.
Qed.

Lemma handler_stores_what_it_reports_witness :
  map fst
    (stored
       (new_events (queued [])
          (snd (handler (second_env "plot_jobs") {| body := heatmaps_body |}
                  (queued []))))) =
    file_keys
      (success_response (PStr "j1")
         [("count_plot", PStr "plot_count__j1.png");
          ("count_log_plot", PStr "plot_count_log__j1.png")]).
Proof.
  apply (handler_stores_what_it_reports (second_env "plot_jobs")
           {| body := heatmaps_body |} (queued [])).
  vm_compute. reflexivity.
Defined.

Lemma process_method_order (E : Env) (job : message) (w : world) :
  exists evs,
    trace (snd (process_method E job w)) = trace w ++ evs /\
    match json_loads E (body job) with
    | inr md => method_job_order md evs
    | inl _ => evs = []
    end.
Proof.
  unfold_script.
  destruct (json_loads E (body job)) as [e | md];
    [eexists; split; [trace_eq | reflexivity] |].
  cbv beta iota.
  destruct md;
    try (simpl; eexists; split; [trace_eq | exact I]).
  unfold py_lookup, py_getitem, py_get.
  repeat exec_step; simpl.
  all: (eexists; split; [trace_eq |]).
  all: simpl; repeat split; try reflexivity; try assumption; lia.
Qed.

(** X8: whatever happens to a method job, its operations come in this
    order: the object the payload names as [file_meta] is fetched, then the
    one it names as [file_counts], then one launcher is called once, then at
    most four (statistical) or three (non-statistical) objects are put.  No
    launcher is called before both inputs were fetched, nothing is put
    before a launcher was called, and nothing at all happens for a body
    that does not decode. *)
Theorem method_job_is_staged (E : Env) (job : message) (w : world) :
  match json_loads E (body job) with
  | inr md => method_job_order md (new_events w (snd (process_method E job w)))
  | inl _ => new_events w (snd (process_method E job w)) = []
  end.
Proof.
  destruct (process_method_order E job w) as (evs & Ht & H).
  rewrite (new_events_app _ _ _ Ht). exact H.
Qed.

Example method_job_order_of_a_run :
  new_events (queued [])
    (snd (process_method method_worker {| body := method_body "j1" "0" |}
            (queued []))) =
    [EvS3Get (PStr "meta.txt"); EvS3Get (PStr "counts.txt");
     EvMethodLaunch
       {| ma_meta := Frame "content of meta.txt";
          ma_counts := Frame "content of counts.txt";
          ma_threshold := float_0_1;
          ma_result_precision := 3%Z;
          ma_subsampler := None |};
     EvS3Put "means_simple_j1.txt" "means";
     EvS3Put "significant_means_j1.txt" "significant_means";
     EvS3Put "deconvoluted_simple_j1.txt" "deconvoluted"].
Proof. vm_compute. reflexivity. Qed.

Lemma process_plot_order (E : Env) (job : message) (w : world) :
  exists evs,
    trace (snd (process_plot E job w)) = trace w ++ evs /\
    plot_job_order evs = true.
Proof.
  unfold_script.
  repeat exec_step; simpl;
    (eexists; split; [trace_eq | reflexivity]).
Qed.

(** X9: whatever happens to a plot job, its operations come in this order:
    the inputs are fetched (four for a dot plot, two for the heatmaps), then
    the plotter is called once, then at most one (dot plot) or two
    (heatmaps) images are put.  A job of unknown type touches neither the
    store nor a plotter. *)
Theorem plot_job_is_staged (E : Env) (job : message) (w : world) :
  plot_job_order (new_events w (snd (process_plot E job w))) = true /\
  (forall md t,
     json_loads E (body job) = inr md ->
     py_get md "type" PNone = inr t ->
     t <> PStr "dot_plot" ->
     t <> PStr "heatmaps_plot" ->
     snd (process_plot E job w) = w).
Proof.
  split.
  - destruct (process_plot_order E job w) as (evs & Ht & H).
    rewrite (new_events_app _ _ _ Ht). exact H.
  - intros md t Hmd Ht Hdot Hheat.
    apply py_eq_str_false in Hdot. apply py_eq_str_false in Hheat.
    unfold process_plot, bind, lift, ret. rewrite Hmd.
    destruct (py_getitem md "job_id"); [reflexivity |].
    rewrite Ht, Hdot, Hheat. reflexivity.
Qed.

Lemma process_method_outputs (E : Env) (job : message) (w : world)
    (resp : pyval) :
  fst (process_method E job w) = inr resp ->
  exists evs j,
    trace (snd (process_method E job w)) = trace w ++ evs /\
    resp_job_id resp = Some j /\
    ((exists w' a pvalues means significant_means deconvoluted,
        launches evs = [EvStatLaunch a] /\
        cpdb_statistical_analysis_launcher E w' a =
          inr (pvalues, means, significant_means, deconvoluted) /\
        stored evs =
          [(("pvalues_simple_" ++ py_format E j ++ ".txt")%string,
            to_csv E pvalues);
           (("means_simple_" ++ py_format E j ++ ".txt")%string,
            to_csv E means);
           (("significant_means_simple_" ++ py_format E j ++ ".txt")%string,
            to_csv E significant_means);
           (("deconvoluted_simple_" ++ py_format E j ++ ".txt")%string,
            to_csv E deconvoluted)]) \/
     (exists w' a means significant_means deconvoluted,
        launches evs = [EvMethodLaunch a] /\
        cpdb_method_analysis_launcher E w' a =
          inr (means, significant_means, deconvoluted) /\
        stored evs =
          [(("means_simple_" ++ py_format E j ++ ".txt")%string,
            to_csv E means);
           (("significant_means_" ++ py_format E j ++ ".txt")%string,
            to_csv E significant_means);
           (("deconvoluted_simple_" ++ py_format E j ++ ".txt")%string,
            to_csv E deconvoluted)])).
Proof.
  unfold_script.
  repeat exec_step; simpl; intros H; try discriminate H;
    injection H as <-; subst;
    (do 2 eexists; split; [trace_eq | split; [reflexivity |]]);
    first [ left; do 6 eexists;
            split; [reflexivity | split; [eassumption | reflexivity]]
          | right; do 5 eexists;
            split; [reflexivity | split; [eassumption | reflexivity]] ].
Qed.

(** X10: a method job that succeeds has stored, under each name, the CSV
    text of the frame the launcher returned for it: the frames of the one
    launcher call are not mixed up and nothing else is stored. *)
Theorem analysis_outputs_stored_by_name (E : Env) (job : message) (w : world)
    (resp : pyval) :
  fst (process_method E job w) = inr resp ->
  exists j,
    resp_job_id resp = Some j /\
    ((exists w' a pvalues means significant_means deconvoluted,
        launches (new_events w (snd (process_method E job w))) =
          [EvStatLaunch a] /\
        cpdb_statistical_analysis_launcher E w' a =
          inr (pvalues, means, significant_means, deconvoluted) /\
        stored (new_events w (snd (process_method E job w))) =
          [(("pvalues_simple_" ++ py_format E j ++ ".txt")%string,
            to_csv E pvalues);
           (("means_simple_" ++ py_format E j ++ ".txt")%string,
            to_csv E means);
           (("significant_means_simple_" ++ py_format E j ++ ".txt")%string,
            to_csv E significant_means);
           (("deconvoluted_simple_" ++ py_format E j ++ ".txt")%string,
            to_csv E deconvoluted)]) \/
     (exists w' a means significant_means deconvoluted,
        launches (new_events w (snd (process_method E job w))) =
          [EvMethodLaunch a] /\
        cpdb_method_analysis_launcher E w' a =
          inr (means, significant_means, deconvoluted) /\
        stored (new_events w (snd (process_method E job w))) =
          [(("means_simple_" ++ py_format E j ++ ".txt")%string,
            to_csv E means);
           (("significant_means_" ++ py_format E j ++ ".txt")%string,
            to_csv E significant_means);
           (("deconvoluted_simple_" ++ py_format E j ++ ".txt")%string,
            to_csv E deconvoluted)])).
Proof.
  intros Hr.
  destruct (process_method_outputs E job w resp Hr) as (evs & j & Ht & Hj & H).
  exists j. rewrite (new_events_app _ _ _ Ht). split; [exact Hj | exact H].
Qed.

(** *** The arguments of the launchers *)

Lemma process_method_subsampler (E : Env) (job : message) (w : world)
    (md : pyval) :
  json_loads E (body job) = inr md ->
  exists evs,
    trace (snd (process_method E job w)) = trace w ++ evs /\
    forall s, In s (subsamplers evs) ->
      if match py_lookup md "subsampling" with
         | Some v => py_truthy v
         | None => false
         end
      then
        exists l p sub,
          py_lookup md "log" = Some l /\
          py_lookup md "num_pc" = Some p /\
          s = Some sub /\
          ss_log sub = py_truthy l /\
          py_int E p = inr (ss_num_pc sub) /\
          match py_lookup md "num_cells" with
          | Some c =>
              if py_truthy c
              then exists z, py_int E c = inr z /\ ss_num_cells sub = Some z
              else ss_num_cells sub = None
          | None => ss_num_cells sub = None
          end
      else s = None.
Proof.
  intros Hmd.
  unfold_script. rewrite Hmd. cbv beta iota.
  destruct md;
    try (simpl; eexists; split; [trace_eq | simpl; intros s0 []]).
  unfold py_lookup, py_getitem, py_get.
  repeat exec_step; simpl.
  all: try (exfalso; simpl in *; congruence).
  all: (eexists; split; [trace_eq |]).
  all: simpl; intros s0 Hs; try contradiction.
  all: destruct Hs as [<- | []].
  all: simpl; try reflexivity.
  all: do 3 eexists;
    (split; [reflexivity |]); (split; [reflexivity |]);
    (split; [reflexivity |]); (split; [reflexivity |]);
    (split; [simpl; eassumption |]);
    simpl; first [reflexivity | eexists; split; reflexivity].
Qed.


(** X11: the [subsampler] a launcher receives.  When the payload has no
    [subsampling] or a false one, it is [None].  Otherwise it is built from
    [log] (by truth value) and [num_pc] (by [int]), which must be there,
    and its [num_cells] is [int(num_cells)] when [num_cells] is present and
    true, and [None] when it is absent or false, 0 included. *)
Theorem subsampler_follows_payload (E : Env) (job : message) (w : world)
    (md : pyval) (s : option Subsampler) :
  json_loads E (body job) = inr md ->
  In s (subsamplers (new_events w (snd (process_method E job w)))) ->
  if match py_lookup md "subsampling" with
     | Some v => py_truthy v
     | None => false
     end
  then
    exists l p sub,
      py_lookup md "log" = Some l /\
      py_lookup md "num_pc" = Some p /\
      s = Some sub /\
      ss_log sub = py_truthy l /\
      py_int E p = inr (ss_num_pc sub) /\
      match py_lookup md "num_cells" with
      | Some c =>
          if py_truthy c
          then exists z, py_int E c = inr z /\ ss_num_cells sub = Some z
          else ss_num_cells sub = None
      | None => ss_num_cells sub = None
      end
  else s = None.
Proof.
  intros Hmd Hs.
  destruct (process_method_subsampler E job w md Hmd) as (evs & Ht & H).
  rewrite (new_events_app _ _ _ Ht) in Hs. exact (H s Hs).
Qed.

Lemma subsampler_follows_payload_witness :
  exists l p sub,
    py_lookup subsampling_value "log" = Some l /\
    py_lookup subsampling_value "num_pc" = Some p /\
    Some {| ss_log := false; ss_num_pc := 100; ss_num_cells := None |} =
      Some sub /\
    ss_log sub = py_truthy l /\
    py_int (second_env "method_jobs") p = inr (ss_num_pc sub) /\
    ss_num_cells sub = None.
Proof.
  apply (subsampler_follows_payload (second_env "method_jobs")
           {| body := subsampling_body |} (queued []) subsampling_value
           (Some {| ss_log := false; ss_num_pc := 100; ss_num_cells := None |})).
  - vm_compute. reflexivity.
  - vm_compute. auto.
Defined.



Lemma process_method_path (E : Env) (job : message) (w : world)
    (md it : pyval) :
  json_loads E (body job) = inr md ->
  py_lookup md "iterations" = Some it ->
  exists evs,
    trace (snd (process_method E job w)) = trace w ++ evs /\
    match launches evs with
    | [] => True
    | [EvStatLaunch _] => py_truthy it = true
    | [EvMethodLaunch _] => py_truthy it = false
    | _ => False
    end.
Proof.
  intros Hmd Hit.
  unfold_script. rewrite Hmd. cbv beta iota.
  destruct md; try discriminate Hit. simpl in Hit.
  unfold py_getitem, py_get. rewrite Hit.
  repeat exec_step; simpl.
  all: (eexists; split; [trace_eq |]).
  all: simpl; auto.
Qed.

(** X13: the analysis is chosen by the truth value of [iterations], taken
    before [int] is applied: a launcher call of a job is the statistical one
    only if [iterations] is true (a non-zero number, [true], a non-empty
    string, be it ["0"]) and the non-statistical one only if it is false
    (0, 0.0, [false], [null], [""]); there is at most one call. *)
Theorem analysis_follows_truth_of_iterations (E : Env) (job : message)
    (w : world) (md it : pyval) :
  json_loads E (body job) = inr md ->
  py_lookup md "iterations" = Some it ->
  match launches (new_events w (snd (process_method E job w))) with
  | [] => True
  | [EvStatLaunch _] => py_truthy it = true
  | [EvMethodLaunch _] => py_truthy it = false
  | _ => False
  end.
Proof.
  intros Hmd Hit.
  destruct (process_method_path E job w md it Hmd Hit) as (evs & Ht & H).
  rewrite (new_events_app _ _ _ Ht). exact H.
Qed.

Lemma analysis_follows_truth_of_iterations_witness :
  match
    launches
      (new_events (queued [])
         (snd (process_method (second_env "method_jobs")
                 {| body := string_iterations_body |} (queued []))))
  with
  | [] => True
  | [EvStatLaunch _] => py_truthy (PStr "0") = true
  | [EvMethodLaunch _] => py_truthy (PStr "0") = false
  | _ => False
  end.
Proof.
  apply (analysis_follows_truth_of_iterations (second_env "method_jobs")
           {| body := string_iterations_body |} (queued [])
           string_iterations_value (PStr "0")).
  - vm_compute. reflexivity.
  - reflexivity.
Defined.

Example string_zero_is_statistical :
  launches
    (new_events (queued [])
       (snd (process_method (second_env "method_jobs")
               {| body := string_iterations_body |} (queued [])))) =
    [EvStatLaunch
       {| sa_meta := Frame "content of meta.txt";
          sa_counts := Frame "content of counts.txt";
          sa_threshold := float_0_1;
          sa_iterations := 0%Z;
          sa_debug_seed := (-1)%Z;
          sa_threads := 4%Z;
          sa_result_precision := 3%Z;
          sa_pvalue := default_pvalue;
          sa_subsampler := None |}].
Proof. vm_compute. reflexivity. Qed.

(** *** Plot jobs *)

(** X14: what a plot handler returns.  A plot job whose handler returns was
    an object with a [job_id]; for type [dot_plot] the response is the
    Success with the one file [plot: plot__<id>.png], for type
    [heatmaps_plot] the Success with [count_plot: plot_count__<id>.png] and
    [count_log_plot: plot_count_log__<id>.png], and for any other type the
    [UnknownPlotType] Failure. *)
Theorem plot_job_response (E : Env) (job : message) (w : world) (resp : pyval) :
  fst (process_plot E job w) = inr resp ->
  exists md j t,
    json_loads E (body job) = inr md /\
    py_getitem md "job_id" = inr j /\
    py_get md "type" PNone = inr t /\
    resp =
      if py_eq_str t "dot_plot" then
        PDict [("job_id", j);
               ("files",
                PDict [("plot",
                        PStr ("plot__" ++ py_format E j ++ ".png")%string)]);
               ("success", PBool true)]
      else if py_eq_str t "heatmaps_plot" then
        PDict [("job_id", j);
               ("files",
                PDict [("count_plot",
                        PStr ("plot_count__" ++ py_format E j
                              ++ ".png")%string);
                       ("count_log_plot",
                        PStr ("plot_count_log__" ++ py_format E j
                              ++ ".png")%string)]);
               ("success", PBool true)]
      else
        PDict [("job_id", j);
               ("success", PBool false);
               ("error",
                PDict [("id", PStr "UnknownPlotType");
                       ("message",
                        PStr ("Given plot type does not exist: "
                              ++ py_format E t)%string)])].
Proof.
  unfold_script.
  repeat exec_step; simpl; intros H; try discriminate H;
    injection H as <-;
    (do 3 eexists;
     split; [reflexivity |];
     split; [eassumption |];
     split; [eassumption |]);
    repeat match goal with
           | Ht : py_eq_str _ _ = _ |- _ => rewrite Ht; clear Ht
           end;
    reflexivity.
Qed.

Lemma plot_job_response_witness :
  exists md j t,
    json_loads (second_env "plot_jobs") dot_plot_body = inr md /\
    py_getitem md "job_id" = inr j /\
    py_get md "type" PNone = inr t /\
    PDict [("job_id", PStr "j4");
           ("files", PDict [("plot", PStr "plot__j4.png")]);
           ("success", PBool true)] =
      if py_eq_str t "dot_plot" then
        PDict [("job_id", j);
               ("files",
                PDict [("plot",
                        PStr ("plot__" ++ py_format (second_env "plot_jobs") j
                              ++ ".png")%string)]);
               ("success", PBool true)]
      else if py_eq_str t "heatmaps_plot" then
        PDict [("job_id", j);
               ("files",
                PDict [("count_plot",
                        PStr ("plot_count__"
                              ++ py_format (second_env "plot_jobs") j
                              ++ ".png")%string);
                       ("count_log_plot",
                        PStr ("plot_count_log__"
                              ++ py_format (second_env "plot_jobs") j
                              ++ ".png")%string)]);
               ("success", PBool true)]
      else
        PDict [("job_id", j);
               ("success", PBool false);
               ("error",
                PDict [("id", PStr "UnknownPlotType");
                       ("message",
                        PStr ("Given plot type does not exist: "
                              ++ py_format (second_env "plot_jobs") t)%string)])].
Proof.
  apply (plot_job_response (second_env "plot_jobs") {| body := dot_plot_body |}
           (queued [])).
  vm_compute. reflexivity.
Defined.

Lemma process_plot_needs_string_keys (E : Env) (job : message) (w : world)
    (d : list (string * pyval)) (j : pyval) :
  json_loads E (body job) = inr (PDict d) ->
  assoc "job_id" d = Some j ->
  temporary_directory E w = None ->
  (assoc "type" d = Some (PStr "dot_plot") /\
   ((forall s, assoc "file_means" d <> Some (PStr s)) \/
    (exists sm,
       assoc "file_means" d = Some (PStr sm) /\
       named_temporary_file E w 0 (Some (splitext_ext E sm)) = None /\
       forall s, assoc "file_pvalues" d <> Some (PStr s)))) \/
  (assoc "type" d = Some (PStr "heatmaps_plot") /\
   (forall s, assoc "file_pvalues" d <> Some (PStr s))) ->
  process_plot E job w = (inl TypeError, w).
Proof.
  intros Hmd Hj Hdir Hcase.
  unfold process_plot, dot_plot_results, heatmaps_plot_results, splitext,
    TemporaryDirectory, NamedTemporaryFile, bind, lift, ret, py_getitem, py_get.
  rewrite Hmd. cbv beta iota. rewrite Hj. cbv beta iota.
  destruct Hcase as [[Ht Hkeys] | [Ht Hkey]]; rewrite Ht; simpl.
  - destruct Hkeys as [Hm | (sm & Hm & Htmp & Hp)].
    + destruct (assoc "file_means" d) as [[| | | | sm | |] |];
        destruct (assoc "file_pvalues" d);
        destruct (assoc "file_rows" d); destruct (assoc "file_columns" d);
        rewrite Hdir; try reflexivity;
        destruct (Hm sm eq_refl).
    + rewrite Hm.
      destruct (assoc "file_pvalues" d) as [[| | | | sp | |] |];
        destruct (assoc "file_rows" d); destruct (assoc "file_columns" d);
        rewrite Hdir, Htmp; try reflexivity;
        destruct (Hp sp eq_refl).
  - destruct (assoc "file_meta" d);
      destruct (assoc "file_pvalues" d) as [[| | | | sp | |] |];
      rewrite Hdir; try reflexivity; destruct (Hkey sp eq_refl).
Qed.

(** X15: a plot job needs its keys as strings before anything is fetched.
    On the plot queue, once the temporary directory is made, each of these
    raises a [TypeError] before the store is touched and is answered by the
    [unknown_error] Failure: a [dot_plot] job whose [file_means] is missing
    or not a string; a [dot_plot] job whose [file_means] is a string, with
    its temporary file made, and whose [file_pvalues] is missing or not a
    string; a [heatmaps_plot] job whose [file_pvalues] is missing or not a
    string. *)
Theorem plot_keys_must_be_strings (E : Env) (job : message) (w : world)
    (d : list (string * pyval)) (j : pyval) :
  jobs_queue_name E = "plot_jobs" ->
  json_loads E (body job) = inr (PDict d) ->
  assoc "job_id" d = Some j ->
  temporary_directory E w = None ->
  (assoc "type" d = Some (PStr "dot_plot") /\
   ((forall s, assoc "file_means" d <> Some (PStr s)) \/
    (exists sm,
       assoc "file_means" d = Some (PStr sm) /\
       named_temporary_file E w 0 (Some (splitext_ext E sm)) = None /\
       forall s, assoc "file_pvalues" d <> Some (PStr s)))) \/
  (assoc "type" d = Some (PStr "heatmaps_plot") /\
   (forall s, assoc "file_pvalues" d <> Some (PStr s))) ->
  handler E job w = (inl TypeError, w) /\
  published (new_events w (snd (run_job E job w))) =
    [PDict [("job_id", j);
            ("success", PBool false);
            ("error",
             PDict [("id", PStr "unknown_error"); ("message", PStr "")])]].
Proof.
  intros Hname Hmd Hj Hdir Hcase.
  assert (Hh : handler E job w = (inl TypeError, w)).
  { unfold handler. rewrite Hname. simpl.
    apply (process_plot_needs_string_keys E job w d j Hmd Hj Hdir Hcase). }
  split; [exact Hh |].
  assert (Hid : body_job_id E job = inr j).
  { unfold body_job_id. rewrite Hmd. simpl. rewrite Hj. reflexivity. }
  destruct (one_job_answer E job w j Hid) as (r & Hp & Hr).
  rewrite Hh in Hr. rewrite Hp, Hr. reflexivity.
Qed.

Lemma plot_keys_must_be_strings_witness :
  handler (second_env "plot_jobs") {| body := bare_dot_plot_body |} (queued []) =
    (inl TypeError, queued []) /\
  published
    (new_events (queued [])
       (snd (run_job (second_env "plot_jobs") {| body := bare_dot_plot_body |}
               (queued [])))) =
    [PDict [("job_id", PStr "j7");
            ("success", PBool false);
            ("error",
             PDict [("id", PStr "unknown_error"); ("message", PStr "")])]].
Proof.
  apply (plot_keys_must_be_strings (second_env "plot_jobs")
           {| body := bare_dot_plot_body |} (queued [])
           [("job_id", PStr "j7"); ("type", PStr "dot_plot")] (PStr "j7")).
  - reflexivity.
  - vm_compute. reflexivity.
  - reflexivity.
  - reflexivity.
  - left. split; [reflexivity |]. left. intros s H. discriminate H.
Defined.

Lemma analysis_outputs_stored_by_name_witness :
  exists j,
    resp_job_id
      (success_response (PStr "j1")
         (non_statistical_files method_worker (PStr "j1"))) = Some j /\
    ((exists w' a pvalues means significant_means deconvoluted,
        launches
          (new_events (queued [])
             (snd (process_method method_worker
                     {| body := method_body "j1" "0" |} (queued [])))) =
          [EvStatLaunch a] /\
        cpdb_statistical_analysis_launcher method_worker w' a =
          inr (pvalues, means, significant_means, deconvoluted) /\
        stored
          (new_events (queued [])
             (snd (process_method method_worker
                     {| body := method_body "j1" "0" |} (queued [])))) =
          [(("pvalues_simple_" ++ py_format method_worker j ++ ".txt")%string,
            to_csv method_worker pvalues);
           (("means_simple_" ++ py_format method_worker j ++ ".txt")%string,
            to_csv method_worker means);
           (("significant_means_simple_" ++ py_format method_worker j
             ++ ".txt")%string,
            to_csv method_worker significant_means);
           (("deconvoluted_simple_" ++ py_format method_worker j
             ++ ".txt")%string,
            to_csv method_worker deconvoluted)]) \/
     (exists w' a means significant_means deconvoluted,
        launches
          (new_events (queued [])
             (snd (process_method method_worker
                     {| body := method_body "j1" "0" |} (queued [])))) =
          [EvMethodLaunch a] /\
        cpdb_method_analysis_launcher method_worker w' a =
          inr (means, significant_means, deconvoluted) /\
        stored
          (new_events (queued [])
             (snd (process_method method_worker
                     {| body := method_body "j1" "0" |} (queued [])))) =
          [(("means_simple_" ++ py_format method_worker j ++ ".txt")%string,
            to_csv method_worker means);
           (("significant_means_" ++ py_format method_worker j
             ++ ".txt")%string,
            to_csv method_worker significant_means);
           (("deconvoluted_simple_" ++ py_format method_worker j
             ++ ".txt")%string,
            to_csv method_worker deconvoluted)])).
Proof.
  apply (analysis_outputs_stored_by_name method_worker
           {| body := method_body "j1" "0" |} (queued [])).
  vm_compute. reflexivity.
Defined.

(** *** The messages of the result queue *)

Lemma handler_response_shape (E : Env) (job : message) (w : world)
    (resp : pyval) :
  fst (handler E job w) = inr resp -> is_success resp \/ is_failure resp.
Proof.
  unfold_script.
  repeat exec_step; simpl; intros H; try discriminate H;
    injection H as <-;
    first [ left; do 2 eexists;
            split; [reflexivity | split; [reflexivity | discriminate]]
          | right; do 3 eexists; reflexivity ].
Qed.

Lemma failure_for_shape (e : exn) (j : pyval) : is_failure (failure_for e j).
Proof. destruct e; do 3 eexists; reflexivity. Qed.

Lemma run_job_shapes (E : Env) (job : message) (w : world) :
  exists evs,
    trace (snd (run_job E job w)) = trace w ++ evs /\
    forall r, In r (published evs) -> is_success r \/ is_failure r.
Proof.
  destruct (run_job_trace E job w) as (hevs & tail & _ & Hh & Ht & _ & Hcase).
  exists (hevs ++ tail). split; [exact Ht |].
  rewrite published_app, (published_handler_events _ Hh). simpl.
  destruct (fst (handler E job w)) as [e | resp] eqn:Hr.
  - destruct (body_job_id E job) as [e' | j]; destruct Hcase as [_ ->].
    + intros r [].
    + destruct (is_closed E (snd (handler E job w))); simpl;
        intros r [<- | []]; right; apply failure_for_shape.
  - destruct Hcase as [_ ->]. simpl. intros r [<- | []].
    apply (handler_response_shape E job w resp Hr).
Qed.

(** X16: every message the worker publishes has one of two shapes: a
    Success [{job_id, files, success: true}] whose [files] is a non-empty
    mapping of names to strings, or a Failure
    [{job_id, success: false, error: {id, message}}] with two strings. *)
Theorem published_results_are_well_formed (E : Env) (fuel : nat) (w : world)
    (r : pyval) :
  In r (published (run_events E fuel w)) -> is_success r \/ is_failure r.
Proof.
  unfold run_events, worker.
  destruct (worker_loop_events E
              (fun evs => forall r, In r (published evs) ->
                                    is_success r \/ is_failure r))
    with (fuel := fuel) (n := 0) (w := snd (reconnect w)) as (evs & Ht & Hevs).
  - intros r0 [].
  - intros xs ys Hx Hy r0. rewrite published_app. intros Hin.
    apply in_app_or in Hin. destruct Hin; auto.
  - intros job r0 [].
  - apply run_job_shapes.
  - rewrite (new_events_app w _ (EvConnect :: evs)).
    + simpl. apply Hevs.
    + rewrite Ht. simpl. rewrite <- app_assoc. reflexivity.
Qed.

Lemma published_results_are_well_formed_witness :
  is_success
    (success_response (PStr "j1")
       (non_statistical_files method_worker (PStr "j1"))) \/
  is_failure
    (success_response (PStr "j1")
       (non_statistical_files method_worker (PStr "j1"))).
Proof.
  apply (published_results_are_well_formed method_worker 2
           (queued [{| body := method_body "j1" "0" |}])).
  vm_compute. auto.
Defined.

(** *** Connections *)

Lemma connects_app (xs ys : list event) :
  connects (xs ++ ys) = connects xs + connects ys.
Proof.
  induction xs as [|x xs IH]; simpl; [reflexivity|].
  destruct x; simpl; rewrite ?IH; reflexivity.
Qed.

Lemma run_job_connects (E : Env) (job : message) (w : world) :
  exists evs,
    trace (snd (run_job E job w)) = trace w ++ evs /\
    connects evs <= length (published evs).
Proof.
  destruct (run_job_trace E job w) as (hevs & tail & _ & Hh & Ht & _ & Hcase).
  exists (hevs ++ tail). split; [exact Ht |].
  rewrite connects_app, published_app.
  rewrite (connects_handler_events _ Hh), (published_handler_events _ Hh).
  simpl.
  destruct (fst (handler E job w)) as [e | resp].
  - destruct (body_job_id E job) as [e' | j]; destruct Hcase as [_ ->].
    + simpl. lia.
    + destruct (is_closed E (snd (handler E job w))); simpl; lia.
  - destruct Hcase as [_ ->]. simpl. lia.
Qed.

(** X17: a run of the worker makes at least one and at most four broker
    connections: the one made before the loop, and at most one for each
    Result it publishes. *)
Theorem connections_per_run (E : Env) (fuel : nat) (w : world) :
  1 <= connects (run_events E fuel w) /\
  connects (run_events E fuel w) <= 1 + length (published (run_events E fuel w)) /\
  connects (run_events E fuel w) <= 4.
Proof.
  unfold run_events, worker.
  set (w0 := snd (reconnect w)).
  destruct (worker_loop_events E
              (fun evs => connects evs <= length (published evs)))
    with (fuel := fuel) (n := 0) (w := w0) as (evs & Ht & Hevs).
  - simpl. lia.
  - intros xs ys Hx Hy. rewrite connects_app, published_app, length_app. lia.
  - intros job. simpl. lia.
  - apply run_job_connects.
  - destruct (worker_loop_counts E fuel 0 w0) as (evs' & Ht' & Hle & Hp & _);
      [lia |].
    assert (evs' = evs) as ->.
    { rewrite Ht in Ht'. apply app_inv_head in Ht'. symmetry. exact Ht'. }
    rewrite (new_events_app w _ (EvConnect :: evs)).
    + simpl. lia.
    + rewrite Ht. unfold w0. simpl. rewrite <- app_assoc. reflexivity.
Qed.

(** *** Messages with an empty body *)

Lemma worker_loop_empty_bodies (E : Env) (fuel : nat) :
  forall (n : nat) (w : world),
    n < 3 ->
    (forall m, In m (job_queue w) -> body m = "") ->
    exists evs,
      trace (snd (worker_loop E fuel n w)) = trace w ++ evs /\
      fst (worker_loop E fuel n w) = Running n /\
      published evs = [] /\
      stored evs = [] /\
      fetched evs = [] /\
      job_queue (snd (worker_loop E fuel n w)) = skipn fuel (job_queue w).
Proof.
  induction fuel as [|fuel IH]; intros n w Hn Hq; simpl;
    destruct (Nat.ltb_spec n 3) as [_ | Hge]; try lia; simpl.
  - exists []. rewrite app_nil_r. repeat split; reflexivity.
  - unfold basic_get.
    destruct (job_queue w) as [|m rest] eqn:Hjq; simpl.
    + destruct (IH n (record (EvBasicGet None) w) Hn) as (evs & Ht & H).
      { simpl. rewrite Hjq. intros m []. }
      exists (EvBasicGet None :: evs).
      rewrite Ht. simpl. rewrite <- app_assoc. simpl.
      destruct H as (H1 & H2 & H3 & H4 & H5).
      rewrite H5. simpl. rewrite Hjq, skipn_nil.
      repeat split; assumption || reflexivity.
    + rewrite (Hq m (or_introl eq_refl)). simpl.
      set (w1 := {| trace := trace w ++ [EvBasicGet (Some m)];
                    job_queue := rest; connection := connection w |}).
      destruct (IH n w1 Hn) as (evs & Ht & H).
      { simpl. intros m' Hm'. apply Hq. right. exact Hm'. }
      exists (EvBasicGet (Some m) :: evs).
      rewrite Ht. simpl. rewrite <- app_assoc. simpl.
      split; [reflexivity | exact H].
Qed.

(** X18: a message with an empty body is taken from the queue and dropped:
    as long as the queue holds only such messages the worker removes one at
    each iteration, hands none to a handler, fetches, stores and publishes
    nothing, and does not count it as a job. *)
Theorem empty_bodies_are_dropped (E : Env) (fuel : nat) (w : world) :
  (forall m, In m (job_queue w) -> body m = "") ->
  fst (worker E fuel w) = Running 0 /\
  published (run_events E fuel w) = [] /\
  stored (run_events E fuel w) = [] /\
  fetched (run_events E fuel w) = [] /\
  job_queue (snd (worker E fuel w)) = skipn fuel (job_queue w).
Proof.
  intros Hq. unfold run_events, worker.
  destruct (worker_loop_empty_bodies E fuel 0 (snd (reconnect w)))
    as (evs & Ht & H); [lia | exact Hq |].
  rewrite (new_events_app w _ (EvConnect :: evs)).
  - simpl. exact H.
  - rewrite Ht. simpl. rewrite <- app_assoc. reflexivity.
Qed.

Lemma empty_bodies_are_dropped_witness :
  fst (worker method_worker 2
         (queued [{| body := "" |}; {| body := "" |}; {| body := "" |}])) =
    Running 0 /\
  published
    (run_events method_worker 2
       (queued [{| body := "" |}; {| body := "" |}; {| body := "" |}])) = [] /\
  stored
    (run_events method_worker 2
       (queued [{| body := "" |}; {| body := "" |}; {| body := "" |}])) = [] /\
  fetched
    (run_events method_worker 2
       (queued [{| body := "" |}; {| body := "" |}; {| body := "" |}])) = [] /\
  job_queue
    (snd (worker method_worker 2
            (queued [{| body := "" |}; {| body := "" |}; {| body := "" |}]))) =
    skipn 2
      (job_queue
         (queued [{| body := "" |}; {| body := "" |}; {| body := "" |}])).
Proof.
  apply (empty_bodies_are_dropped method_worker 2
           (queued [{| body := "" |}; {| body := "" |}; {| body := "" |}])).
  simpl. intros m [<- | [<- | [<- | []]]]; reflexivity.
Defined.

(** *** The names of the outputs *)

Lemma length_append (a b : string) :
  String.length (a ++ b) = String.length a + String.length b.
Proof. induction a as [|c a IH]; simpl; [reflexivity | rewrite IH; reflexivity]. Qed.

Lemma append_cancel_r (s : string) :
  forall a b : string, (a ++ s)%string = (b ++ s)%string -> a = b.
Proof.
  induction a as [|c a IH]; intros [|c' b] H; simpl in H.
  - reflexivity.
  - apply (f_equal String.length) in H. simpl in H.
    rewrite length_append in H. lia.
  - apply (f_equal String.length) in H. simpl in H.
    rewrite length_append in H. lia.
  - injection H as -> H. f_equal. apply IH. exact H.
Qed.

(** X19: on each of the two paths the storage keys identify the job: two
    method jobs of the same path whose [job_id]s are strings share a key
    only if they have the same [job_id]. *)
Theorem method_keys_identify_the_job (E : Env) (statistical : bool)
    (a b k : string) :
  In k (file_keys
          (success_response (PStr a)
             (if statistical then statistical_files E (PStr a)
              else non_statistical_files E (PStr a)))) ->
  In k (file_keys
          (success_response (PStr b)
             (if statistical then statistical_files E (PStr b)
              else non_statistical_files E (PStr b)))) ->
  a = b.
Proof.
  destruct statistical; unfold py_format; simpl; intros Ha Hb;
    repeat (destruct Ha as [Ha | Ha]; [| try contradiction]);
    repeat (destruct Hb as [Hb | Hb]; [| try contradiction]);
    subst k; try discriminate Hb;
    repeat injection Hb as Hb;
    apply (append_cancel_r ".txt"); symmetry; exact Hb.
Qed.

Lemma method_keys_identify_the_job_witness : "j1" = "j1".
Proof.
  apply (method_keys_identify_the_job method_worker true "j1" "j1"
           "significant_means_simple_j1.txt").
  - vm_compute. auto.
  - vm_compute. auto.
Defined.

(** X20: across the two paths the keys do collide: for every [a], the
    statistical job [a] and the non-statistical job [simple_a], which is
    another job, both write [significant_means_simple_a.txt]; and the two
    paths of one job share its means and deconvoluted keys. *)
Theorem paths_share_keys (E : Env) (a : string) :
  In ("significant_means_simple_" ++ a ++ ".txt")%string
     (file_keys (success_response (PStr a) (statistical_files E (PStr a)))) /\
  In ("significant_means_simple_" ++ a ++ ".txt")%string
     (file_keys
        (success_response (PStr ("simple_" ++ a))
           (non_statistical_files E (PStr ("simple_" ++ a))))) /\
  ("simple_" ++ a)%string <> a /\
  In ("means_simple_" ++ a ++ ".txt")%string
     (file_keys (success_response (PStr a) (statistical_files E (PStr a)))) /\
  In ("means_simple_" ++ a ++ ".txt")%string
     (file_keys (success_response (PStr a) (non_statistical_files E (PStr a)))) /\
  In ("deconvoluted_simple_" ++ a ++ ".txt")%string
     (file_keys (success_response (PStr a) (statistical_files E (PStr a)))) /\
  In ("deconvoluted_simple_" ++ a ++ ".txt")%string
     (file_keys (success_response (PStr a) (non_statistical_files E (PStr a)))).
Proof.
  unfold py_format. simpl.
  repeat split; auto 6.
  intros H. apply (f_equal String.length) in H. simpl in H. lia.
Qed.
